(** * Don Charo back office: sale creation and bulk price update

    A shallow embedding of the request handlers of [app/routes/ventas.py]
    and [app/routes/productos.py] over the tables of [app/models.py], with
    the SQLAlchemy session of [app/database.py] written out as explicit
    state: a committed database, the working copy of the open transaction,
    and the objects added but not yet flushed. *)

From Stdlib Require Import ZArith Floats Lia.
From stdpp Require Import gmap strings list pretty sorting.

Local Open Scope Z_scope.

(** ** Python numbers

    Python's [float] is IEEE-754 binary64, the kernel's primitive [float];
    Python's [int] is unbounded, [Z]. *)

(** [int * float] first converts the int, rounding to nearest, ties to even.
    (CPython raises OverflowError from 2^1024 on, where this conversion
    yields an infinity; the quantities modelled here are destined for a
    32-bit INTEGER column.) *)
Definition int_to_float (n : Z) : float :=
  SF2Prim (binary_normalize prec emax n 0 false).

(** The builtin [sum], whose start value is the int [0]: a left fold.
    (CPython 3.12 compensates the running sum of floats; the results below
    use [py_sum] only as a function of the sequence of its terms and at the
    empty sequence, where both agree.) *)
Definition py_sum (xs : list float) : float :=
  fold_left PrimFloat.add xs 0%float.

(** Quotient of two positive integers rounded to the nearest integer, ties
    to even. *)
Definition div_half_even (a b : Z) : Z :=
  let q := a / b in
  let r := a mod b in
  if 2 * r <? b then q
  else if b <? 2 * r then q + 1
  else if Z.even q then q else q + 1.

(** The builtin [round(x, ndigits)] on a float, [ndigits >= 0]: the exact
    binary value of [x] is rounded (ties to even) to [ndigits] decimals,
    and the decimal obtained is converted back to the nearest float.
    Infinities, NaN and zeros round to themselves. *)
Definition py_round (x : float) (ndigits : N) : float :=
  match Prim2SF x with
  | S754_finite s m e =>
      if 0 <=? e then x
      else
        let scale := Z.to_pos (10 ^ Z.of_N ndigits) in
        match div_half_even (Z.pos m * Z.pos scale) (2 ^ (- e)) with
        | Z.pos n =>
            SF2Prim (SFdiv prec emax (S754_finite s n 0)
                                     (S754_finite false scale 0))
        | _ => if s then (-0)%float else 0%float
        end
  | _ => x
  end.

(** ** Exceptions and handler results *)

Inductive Exception : Type :=
| HTTPException (status_code : Z) (detail : string)
| AttributeError (msg : string)
| TypeError (msg : string)
| IntegrityError (msg : string).

(** [str(e)] for the built-in exceptions. *)
Definition str (e : Exception) : string :=
  match e with
  | HTTPException _ detail => detail
  | AttributeError msg | TypeError msg | IntegrityError msg => msg
  end.

Inductive Result (A : Type) : Type :=
| Return (a : A)
| Raise (e : Exception).
Arguments Return {A} a.
Arguments Raise {A} e.


Definition is_error {A} (r : Result A) : Prop :=
  match r with Return _ => False | Raise _ => True end.

(** ** [app/models.py]

    Columns keep their names.  A nullable column the handlers can leave or
    set NULL is an [option].  The table [productos] is a map from the
    primary key [id] to the other columns of the row; the timestamps of
    [Producto] ([fecha_creacion], [fecha_actualizacion]) play no part in
    the handlers below and are left out. *)

Module Producto.
Record t : Type := mk {
  nombre : string;
  descripcion : option string;
  precio_costo : float;
  precio_venta : float;
  stock : option Z;
  stock_minimo : option Z;
  categoria : option string;
  codigo_barras : option string;
  activo : bool
}.

Definition with_stock (v : option Z) (p : t) : t :=
  mk (nombre p) (descripcion p) (precio_costo p) (precio_venta p)
     v (stock_minimo p) (categoria p) (codigo_barras p) (activo p).

Definition with_precio_costo (v : float) (p : t) : t :=
  mk (nombre p) (descripcion p) v (precio_venta p)
     (stock p) (stock_minimo p) (categoria p) (codigo_barras p) (activo p).

Definition with_precio_venta (v : float) (p : t) : t :=
  mk (nombre p) (descripcion p) (precio_costo p) v
     (stock p) (stock_minimo p) (categoria p) (codigo_barras p) (activo p).

Definition with_nombre (v : string) (p : t) : t :=
  mk v (descripcion p) (precio_costo p) (precio_venta p)
     (stock p) (stock_minimo p) (categoria p) (codigo_barras p) (activo p).

Definition with_categoria (v : option string) (p : t) : t :=
  mk (nombre p) (descripcion p) (precio_costo p) (precio_venta p)
     (stock p) (stock_minimo p) v (codigo_barras p) (activo p).

Definition with_codigo_barras (v : option string) (p : t) : t :=
  mk (nombre p) (descripcion p) (precio_costo p) (precio_venta p)
     (stock p) (stock_minimo p) (categoria p) v (activo p).

Definition with_activo (v : bool) (p : t) : t :=
  mk (nombre p) (descripcion p) (precio_costo p) (precio_venta p)
     (stock p) (stock_minimo p) (categoria p) (codigo_barras p) v.

(** The class declares no column, property or attribute
    [margen_porcentaje]: reading it on an instance raises. *)
Definition margen_porcentaje (p : t) : Result float :=
  Raise (AttributeError "'Producto' object has no attribute 'margen_porcentaje'").
End Producto.

Module Venta.
Record t : Type := mk {
  id : Z;
  usuario_id : Z;
  fecha : Z;
  total : float;
  metodo_pago : string;
  observaciones : option string
}.
End Venta.

Module ItemVenta.
(** [id] is [None] on an object that has been added to the session and not
    flushed yet. *)
Record t : Type := mk {
  id : option Z;
  venta_id : Z;
  producto_id : Z;
  cantidad : Z;
  precio_unitario : float;
  subtotal : float
}.

Definition with_id (v : Z) (i : t) : t :=
  mk (Some v) (venta_id i) (producto_id i) (cantidad i) (precio_unitario i)
     (subtotal i).
End ItemVenta.

(** ** [app/schemas.py] *)

Module ItemVentaCreate.
Record t : Type := mk {
  producto_id : Z;
  cantidad : Z;
  precio_unitario : float
}.
End ItemVentaCreate.

Module VentaCreate.
Record t : Type := mk {
  items : list ItemVentaCreate.t;
  metodo_pago : string;
  observaciones : option string
}.
End VentaCreate.

(** A field of a model read with [exclude_unset=True]: absent from the
    payload, or present with a value that may be [null]. *)
Inductive Field (A : Type) : Type :=
| Unset
| SetTo (v : option A).
Arguments Unset {A}.
Arguments SetTo {A} v.

Module ProductoUpdate.
Record t : Type := mk {
  nombre : Field string;
  precio_costo : Field float;
  precio_venta : Field float;
  stock : Field Z;
  categoria : Field string;
  codigo_barras : Field string
}.
End ProductoUpdate.

Module ActualizacionPreciosMasivaRequest.
(** Modelled from the spec: the request schema of the bulk price update is
    not declared in [app/schemas.py]; its two fields are the handler's
    [request.producto_ids] and [request.porcentaje_aumento], a list of ids
    and a float. *)
Record t : Type := mk {
  producto_ids : list Z;
  porcentaje_aumento : float
}.
End ActualizacionPreciosMasivaRequest.

Module ActualizacionPreciosMasivaResponse.
Record t : Type := mk {
  success : bool;
  productos_actualizados : Z;
  message : string
}.
End ActualizacionPreciosMasivaResponse.

(** ** [app/database.py]: database and session *)

Record Tables : Type := mkTables {
  productos : gmap Z Producto.t;
  ventas : list Venta.t;
  items_venta : list ItemVenta.t
}.

(** What PostgreSQL holds between requests: the committed rows and the two
    id sequences, which a rollback does not rewind. *)
Record Database : Type := mkDatabase {
  tables : Tables;
  ventas_id_seq : Z;
  items_venta_id_seq : Z
}.

(** A session: the database it is bound to, the rows as the open
    transaction and the identity map see them, and the [ItemVenta] objects
    added and awaiting the flush that [commit] performs
    ([autoflush=False]). *)
Record Session : Type := mkSession {
  database : Database;
  working : Tables;
  new : list ItemVenta.t
}.

Definition SessionLocal (db : Database) : Session :=
  mkSession db (tables db) [].

Definition rollback (db : Session) : Session :=
  mkSession (database db) (tables (database db)) [].

(** Ids for the pending items, in the order they were added. *)
Fixpoint assign_ids (next : Z) (pending : list ItemVenta.t) : list ItemVenta.t :=
  match pending with
  | [] => []
  | i :: rest => ItemVenta.with_id next i :: assign_ids (next + 1) rest
  end.

Definition commit (db : Session) : Session :=
  let t := working db in
  let seq := items_venta_id_seq (database db) in
  let t' := mkTables (productos t) (ventas t)
                     (items_venta t ++ assign_ids seq (new db)) in
  mkSession (mkDatabase t' (ventas_id_seq (database db))
                        (seq + Z.of_nat (length (new db))))
            t' [].

(** [get_db]: a fresh session for the request, closed when the handler
    returns or raises; whatever was not committed is gone. *)
Definition get_db {A} (handler : Session -> Result A * Session)
    (db : Database) : Result A * Database :=
  let '(r, s) := handler (SessionLocal db) in (r, database s).

(** [db.add(db_venta); db.flush()]: the header row is inserted in the open
    transaction with the next id of its sequence. *)
Definition add_flush_venta (usuario_id fecha : Z) (total : float)
    (metodo_pago : string) (observaciones : option string) (db : Session)
    : Venta.t * Session :=
  let d := database db in
  let t := working db in
  let db_venta :=
    Venta.mk (ventas_id_seq d) usuario_id fecha total metodo_pago observaciones in
  (db_venta,
   mkSession (mkDatabase (tables d) (ventas_id_seq d + 1) (items_venta_id_seq d))
             (mkTables (productos t) (ventas t ++ [db_venta]) (items_venta t))
             (new db)).

Definition add (db_item : ItemVenta.t) (db : Session) : Session :=
  mkSession (database db) (working db) (new db ++ [db_item]).

(** [db.query(models.Producto).filter(models.Producto.id == i).first()]:
    the object the identity map holds for that primary key, with the
    attribute values assigned so far in this session. *)
Definition query_producto (i : Z) (db : Session) : option Producto.t :=
  productos (working db) !! i.

(** The same with the extra criterion [models.Producto.activo == True]. *)
Definition query_producto_activo (i : Z) (db : Session) : option Producto.t :=
  match productos (working db) !! i with
  | Some p => if Producto.activo p then Some p else None
  | None => None
  end.

(** Assigning attributes of a loaded object changes its row in the open
    transaction. *)
Definition set_producto (i : Z) (p : Producto.t) (db : Session) : Session :=
  let t := working db in
  mkSession (database db)
            (mkTables (<[i := p]> (productos t)) (ventas t)
                      (items_venta t))
            (new db).

(** ** [app/routes/ventas.py] *)

(** The loop of [crear_venta] over [venta.items]. *)
Fixpoint crear_items (venta_id : Z) (items : list ItemVentaCreate.t)
    (db : Session) : Result unit * Session :=
  match items with
  | [] => (Return tt, db)
  | item :: rest =>
      match query_producto (ItemVentaCreate.producto_id item) db with
      | None =>
          (Raise (HTTPException 404
                    ("Producto " +:+ pretty (ItemVentaCreate.producto_id item)
                       +:+ " no encontrado")),
           rollback db)
      | Some producto =>
          match Producto.stock producto with
          | None =>
              (Raise (TypeError
                 "'<' not supported between instances of 'NoneType' and 'int'"),
               db)
          | Some stock =>
              if stock <? ItemVentaCreate.cantidad item then
                (Raise (HTTPException 400
                          ("Stock insuficiente para " +:+ Producto.nombre producto)),
                 rollback db)
              else
                let db_item :=
                  ItemVenta.mk None venta_id
                    (ItemVentaCreate.producto_id item)
                    (ItemVentaCreate.cantidad item)
                    (ItemVentaCreate.precio_unitario item)
                    (int_to_float (ItemVentaCreate.cantidad item)
                       * ItemVentaCreate.precio_unitario item)%float in
                let db := add db_item db in
                let db :=
                  set_producto (ItemVentaCreate.producto_id item)
                    (Producto.with_stock
                       (Some (stock - ItemVentaCreate.cantidad item)) producto)
                    db in
                crear_items venta_id rest db
          end
      end
  end.

Definition crear_venta (venta : VentaCreate.t) (current_user_id now : Z)
    (db : Session) : Result Venta.t * Session :=
  let total :=
    py_sum (map (fun item =>
                   (int_to_float (ItemVentaCreate.cantidad item)
                      * ItemVentaCreate.precio_unitario item)%float)
                (VentaCreate.items venta)) in
  let '(db_venta, db) :=
    add_flush_venta current_user_id now total
      (VentaCreate.metodo_pago venta) (VentaCreate.observaciones venta) db in
  match crear_items (Venta.id db_venta) (VentaCreate.items venta) db with
  | (Raise e, db) => (Raise e, db)
  | (Return _, db) => (Return db_venta, commit db)
  end.

(** The relationship [Venta.items]: the rows of [items_venta] that carry
    the sale's id. *)
Definition Venta_items (t : Tables) (v : Venta.t) : list ItemVenta.t :=
  filter (fun i => ItemVenta.venta_id i = Venta.id v) (items_venta t).

(** ** [app/routes/productos.py] *)

(** The loop of [actualizar_precios_masivo] over [request.producto_ids];
    [productos_actualizados] is the counter. *)
Fixpoint actualizar_precios (producto_ids : list Z) (porcentaje_aumento : float)
    (productos_actualizados : Z) (db : Session) : Result Z * Session :=
  match producto_ids with
  | [] => (Return productos_actualizados, db)
  | producto_id :: rest =>
      match query_producto_activo producto_id db with
      | None =>
          actualizar_precios rest porcentaje_aumento productos_actualizados db
      | Some producto =>
          let nuevo_precio_costo :=
            (Producto.precio_costo producto
               * (1 + porcentaje_aumento / 100))%float in
          if (nuevo_precio_costo <=? 0)%float then
            actualizar_precios rest porcentaje_aumento productos_actualizados db
          else
            let producto :=
              Producto.with_precio_costo (py_round nuevo_precio_costo 2)
                producto in
            let db := set_producto producto_id producto db in
            match Producto.margen_porcentaje producto with
            | Raise e => (Raise e, db)
            | Return margen_porcentaje =>
                let producto :=
                  Producto.with_precio_venta
                    (py_round (Producto.precio_costo producto
                                 * (1 + margen_porcentaje / 100))%float 2)
                    producto in
                let db := set_producto producto_id producto db in
                actualizar_precios rest porcentaje_aumento
                  (productos_actualizados + 1) db
            end
      end
  end.

Definition actualizar_precios_masivo
    (request : ActualizacionPreciosMasivaRequest.t) (db : Session)
    : Result ActualizacionPreciosMasivaResponse.t * Session :=
  let porcentaje_aumento :=
    ActualizacionPreciosMasivaRequest.porcentaje_aumento request in
  let producto_ids := ActualizacionPreciosMasivaRequest.producto_ids request in
  if (porcentaje_aumento <? -50)%float then
    (Raise (HTTPException 400
              "El porcentaje de aumento no puede ser menor a -50%"), db)
  else if (200 <? porcentaje_aumento)%float then
    (Raise (HTTPException 400
              "El porcentaje de aumento no puede ser mayor a 200%"), db)
  else
    match producto_ids with
    | [] =>
        (Raise (HTTPException 400 "Debe seleccionar al menos un producto"), db)
    | _ :: _ =>
        match actualizar_precios producto_ids porcentaje_aumento 0 db with
        | (Return productos_actualizados, db) =>
            (Return (ActualizacionPreciosMasivaResponse.mk true
                       productos_actualizados
                       (pretty productos_actualizados
                          +:+ " productos actualizados exitosamente")),
             commit db)
        | (Raise e, db) =>
            (Raise (HTTPException 500
                      ("Error al actualizar productos: " +:+ str e)),
             rollback db)
        end
    end.

(** [key in update_data], for [update_data = producto.dict(exclude_unset=True)]. *)
Definition in_update_data {A} (f : Field A) : bool :=
  match f with Unset => false | SetTo _ => true end.

(** [setattr(db_producto, key, value)] for one key of [update_data].  The
    result is [None] once a NOT NULL column holds [None]: such an object
    cannot be flushed. *)
Definition setattr_nullable {A} (f : Field A)
    (set : option A -> Producto.t -> Producto.t) (o : option Producto.t)
    : option Producto.t :=
  match f with
  | Unset => o
  | SetTo v => set v <$> o
  end.

Definition setattr_not_null {A} (f : Field A)
    (set : A -> Producto.t -> Producto.t) (o : option Producto.t)
    : option Producto.t :=
  match f with
  | Unset => o
  | SetTo None => None
  | SetTo (Some v) => set v <$> o
  end.

Definition setattrs (update_data : ProductoUpdate.t) (db_producto : Producto.t)
    : option Producto.t :=
  setattr_nullable (ProductoUpdate.codigo_barras update_data)
    Producto.with_codigo_barras
  (setattr_nullable (ProductoUpdate.categoria update_data)
    Producto.with_categoria
  (setattr_nullable (ProductoUpdate.stock update_data)
    Producto.with_stock
  (setattr_not_null (ProductoUpdate.precio_venta update_data)
    Producto.with_precio_venta
  (setattr_not_null (ProductoUpdate.precio_costo update_data)
    Producto.with_precio_costo
  (setattr_not_null (ProductoUpdate.nombre update_data)
    Producto.with_nombre
  (Some db_producto)))))).

(** Is there a row other than [producto_id] with this barcode? *)
Definition otro_con_codigo (codigo : string) (producto_id : Z) (t : Tables)
    : bool :=
  existsb (fun '(i, p) =>
             bool_decide (i ≠ producto_id)
             && bool_decide (Producto.codigo_barras p = Some codigo))
          (map_to_list (productos t)).

Definition actualizar_producto (producto_id : Z) (producto : ProductoUpdate.t)
    (db : Session) : Result Producto.t * Session :=
  match query_producto producto_id db with
  | None => (Raise (HTTPException 404 "Producto no encontrado"), db)
  | Some db_producto =>
      let duplicado :=
        match ProductoUpdate.codigo_barras producto with
        | SetTo (Some codigo) =>
            negb (String.eqb codigo "")
            && otro_con_codigo codigo producto_id (working db)
        | _ => false
        end in
      if duplicado then
        (Raise (HTTPException 400
                  "Ya existe otro producto con ese código de barras"), db)
      else
        let actualizado := setattrs producto db_producto in
        let recalculado : Result (option Producto.t) :=
          if in_update_data (ProductoUpdate.precio_costo producto) then
            match Producto.margen_porcentaje db_producto with
            | Raise e => Raise e
            | Return margen_porcentaje =>
                Return ((fun p =>
                           Producto.with_precio_venta
                             (Producto.precio_costo p
                                * (1 + margen_porcentaje / 100))%float p)
                          <$> actualizado)
            end
          else Return actualizado in
        match recalculado with
        | Raise e => (Raise e, db)
        | Return None =>
            (Raise (IntegrityError "null value violates not-null constraint"),
             db)
        | Return (Some p) =>
            let unico :=
              match ProductoUpdate.codigo_barras producto with
              | SetTo (Some codigo) =>
                  negb (otro_con_codigo codigo producto_id (working db))
              | _ => true
              end in
            if unico then (Return p, commit (set_producto producto_id p db))
            else
              (Raise (IntegrityError
                        "duplicate key value violates unique constraint"), db)
        end
  end.

(** ** What the loop does, line by line

    [lineas_ok m items m'] : starting from the product rows [m], every line
    of [items], taken in order, finds its product with a stock that is a
    number and covers the quantity asked; [m'] is [m] with each of those
    quantities taken off.  A later line sees the stock left by the earlier
    ones. *)
Inductive lineas_ok :
  gmap Z Producto.t -> list ItemVentaCreate.t -> gmap Z Producto.t -> Prop :=
| lineas_nil (m : gmap Z Producto.t) : lineas_ok m [] m
| lineas_cons (m m' : gmap Z Producto.t) (item : ItemVentaCreate.t)
    (rest : list ItemVentaCreate.t) (p : Producto.t) (s : Z) :
    m !! ItemVentaCreate.producto_id item = Some p ->
    Producto.stock p = Some s ->
    ItemVentaCreate.cantidad item <= s ->
    lineas_ok
      (<[ItemVentaCreate.producto_id item :=
           Producto.with_stock (Some (s - ItemVentaCreate.cantidad item)) p]> m)
      rest m' ->
    lineas_ok m (item :: rest) m'.

(** The object built for one line, before it has an id. *)
Definition db_item_of (venta_id : Z) (item : ItemVentaCreate.t) : ItemVenta.t :=
  ItemVenta.mk None venta_id
    (ItemVentaCreate.producto_id item)
    (ItemVentaCreate.cantidad item)
    (ItemVentaCreate.precio_unitario item)
    (int_to_float (ItemVentaCreate.cantidad item)
       * ItemVentaCreate.precio_unitario item)%float.

(** The rows of [items_venta] a sale leaves for its lines: one per line, in
    the order of the request, ids taken in sequence from [next]. *)
Fixpoint filas (venta_id next : Z) (items : list ItemVentaCreate.t)
    : list ItemVenta.t :=
  match items with
  | [] => []
  | item :: rest =>
      ItemVenta.mk (Some next) venta_id
        (ItemVentaCreate.producto_id item)
        (ItemVentaCreate.cantidad item)
        (ItemVentaCreate.precio_unitario item)
        (int_to_float (ItemVentaCreate.cantidad item)
           * ItemVentaCreate.precio_unitario item)%float
      :: filas venta_id (next + 1) rest
  end.

(** The header row of a sale. *)
Definition cabecera (db : Database) (venta : VentaCreate.t)
    (current_user_id now : Z) : Venta.t :=
  Venta.mk (ventas_id_seq db) current_user_id now
    (py_sum (map (fun item =>
                    (int_to_float (ItemVentaCreate.cantidad item)
                       * ItemVentaCreate.precio_unitario item)%float)
                 (VentaCreate.items venta)))
    (VentaCreate.metodo_pago venta) (VentaCreate.observaciones venta).

(** The database after a failed [crear_venta]: the rows as they were; the
    sequence of [ventas] has given out one id. *)
Definition tras_fallo (db : Database) : Database :=
  mkDatabase (tables db) (ventas_id_seq db + 1) (items_venta_id_seq db).

(** The database after a [crear_venta] that went through, with [m'] the
    product rows left by its lines. *)
Definition tras_venta (db : Database) (venta : VentaCreate.t)
    (current_user_id now : Z) (m' : gmap Z Producto.t) : Database :=
  mkDatabase
    (mkTables m'
       (ventas (tables db) ++ [cabecera db venta current_user_id now])
       (items_venta (tables db)
          ++ filas (ventas_id_seq db) (items_venta_id_seq db)
               (VentaCreate.items venta)))
    (ventas_id_seq db + 1)
    (items_venta_id_seq db + Z.of_nat (length (VentaCreate.items venta))).

(** The session in which the loop stands after lines that all passed. *)
Definition tras_lineas (venta_id : Z) (items : list ItemVentaCreate.t)
    (m' : gmap Z Producto.t) (db : Session) : Session :=
  mkSession (database db)
    (mkTables m' (ventas (working db)) (items_venta (working db)))
    (new db ++ map (db_item_of venta_id) items).


(** Every product's [activo] flag replaced by what [flags] says for its id;
    nothing else changes. *)
Definition marcar_tablas (flags : Z -> bool) (t : Tables) : Tables :=
  mkTables
    (map_imap (fun i p => Some (Producto.with_activo (flags i) p)) (productos t))
    (ventas t) (items_venta t).

Definition marcar_activo (flags : Z -> bool) (db : Database) : Database :=
  mkDatabase (marcar_tablas flags (tables db))
    (ventas_id_seq db) (items_venta_id_seq db).

Definition marcar_sesion (flags : Z -> bool) (db : Session) : Session :=
  mkSession (marcar_activo flags (database db))
    (marcar_tablas flags (working db)) (new db).

(** A product of the table has a stock that is a number, and not negative. *)
Definition stock_no_negativo (m : gmap Z Producto.t) (i : Z) : Prop :=
  exists p s, m !! i = Some p /\ Producto.stock p = Some s /\ 0 <= s.

(** The bulk update passes over this id: no active product has it, or the
    cost it would get is not positive. *)
Definition omitido (porcentaje_aumento : float) (m : gmap Z Producto.t)
    (producto_id : Z) : bool :=
  match m !! producto_id with
  | Some p =>
      if Producto.activo p then
        (Producto.precio_costo p * (1 + porcentaje_aumento / 100) <=? 0)%float
      else true
  | None => true
  end.

(** ** Sample data *)

Definition yerba (stock : Z) (activo : bool) : Producto.t :=
  Producto.mk "Yerba" None 100 120 (Some stock) (Some 10) None None activo.

(** One product, id 1, cost 100 and sale price 120; no sale yet. *)
Definition almacen (stock : Z) (activo : bool) : Database :=
  mkDatabase (mkTables {[1 := yerba stock activo]} [] []) 1 1.

(** A request for [cantidad] units of product 1 at 10 each. *)
Definition pedido (cantidad : Z) : VentaCreate.t :=
  VentaCreate.mk [ItemVentaCreate.mk 1 cantidad 10] "efectivo" None.

(** Two products: 1 is active, 2 is not. *)
Definition almacen_dos : Database :=
  mkDatabase (mkTables {[1 := yerba 5 true; 2 := yerba 5 false]} [] []) 1 1.
(** ** The other handlers of [app/routes/ventas.py] and
    [app/routes/productos.py] *)

(** [models.RolEnum], a [str] enum: a member compares equal to its value. *)
Inductive RolEnum : Type := SUPERADMIN | ADMIN | CAJERO.

Definition RolEnum_value (r : RolEnum) : string :=
  match r with
  | SUPERADMIN => "superadmin"
  | ADMIN => "admin"
  | CAJERO => "cajero"
  end.

Module Usuario.
(** The columns of [usuarios] the handlers below read. *)
Record t : Type := mk {
  id : Z;
  username : string;
  rol : RolEnum;
  activo : bool
}.
End Usuario.

(** [query.offset(skip).limit(limit).all()] over the rows in the order the
    query yields them.  PostgreSQL rejects a negative OFFSET or LIMIT: the
    statement fails and the request ends in a 500. *)
Definition offset_limit {A} (skip limit : Z) (rows : list A) : option (list A) :=
  if (skip <? 0) || (limit <? 0) then None
  else Some (take (Z.to_nat limit) (drop (Z.to_nat skip) rows)).

(** [listar_ventas]: an admin gets the sales of everybody, any other role
    its own.  The query has no ORDER BY; the rows come here in the order
    of the table. *)
Definition listar_ventas (skip limit : Z) (current_user : Usuario.t)
    (db : Session) : option (list Venta.t) :=
  if String.eqb (RolEnum_value (Usuario.rol current_user)) "admin" then
    offset_limit skip limit (ventas (working db))
  else
    offset_limit skip limit
      (List.filter (fun v => Venta.usuario_id v =? Usuario.id current_user)
         (ventas (working db))).


(** [eliminar_producto]: the row stays, its [activo] goes to [False]. *)
Definition eliminar_producto (producto_id : Z) (db : Session)
    : Result string * Session :=
  match query_producto producto_id db with
  | None => (Raise (HTTPException 404 "Producto no encontrado"), db)
  | Some db_producto =>
      (Return "Producto eliminado correctamente",
       commit (set_producto producto_id
                 (Producto.with_activo false db_producto) db))
  end.

(** [buscar_por_codigo_barras].  [first()] takes the row the database
    yields first; [codigo_barras] is UNIQUE, so there is at most one to
    take.  The row is returned with its id. *)
Definition buscar_por_codigo_barras (codigo : string) (db : Session)
    : Result (Z * Producto.t) * Session :=
  match
    head (List.filter
            (fun r : Z * Producto.t =>
               bool_decide (Producto.codigo_barras r.2 = Some codigo)
               && Producto.activo r.2)
            (map_to_list (productos (working db))))
  with
  | None =>
      (Raise (HTTPException 404
                ("Producto con código de barras '" +:+ codigo
                   +:+ "' no encontrado")), db)
  | Some (i, producto) =>
      match Producto.stock producto with
      | None =>
          (Raise (TypeError
             "'<=' not supported between instances of 'NoneType' and 'int'"),
           db)
      | Some stock =>
          if stock <=? 0 then
            (Raise (HTTPException 400
                      ("El producto '" +:+ Producto.nombre producto
                         +:+ "' no tiene stock disponible")), db)
          else (Return (i, producto), db)
      end
  end.

Module ProductoCreate.
Record t : Type := mk {
  nombre : string;
  descripcion : option string;
  precio_costo : float;
  precio_venta : float;
  stock : Z;
  stock_minimo : Z;
  categoria : option string;
  codigo_barras : option string
}.

(** The schema has no field [margen_porcentaje] (and drops one sent in the
    body): reading it on the parsed request raises. *)
Definition margen_porcentaje (p : t) : Result float :=
  Raise (AttributeError
           "'ProductoCreate' object has no attribute 'margen_porcentaje'").
End ProductoCreate.

(** [crear_producto]; [nuevo_id] is the id the sequence of [productos]
    would hand to the new row. *)
Definition crear_producto (producto : ProductoCreate.t) (nuevo_id : Z)
    (db : Session) : Result (Z * Producto.t) * Session :=
  let existing :=
    match ProductoCreate.codigo_barras producto with
    | Some codigo =>
        negb (String.eqb codigo "")
        && existsb (fun r : Z * Producto.t =>
                      bool_decide (Producto.codigo_barras r.2 = Some codigo))
             (map_to_list (productos (working db)))
    | None => false
    end in
  if existing then
    (Raise (HTTPException 400
              "Ya existe un producto con ese código de barras"), db)
  else
    match ProductoCreate.margen_porcentaje producto with
    | Raise e => (Raise e, db)
    | Return margen_porcentaje =>
        let precio_venta_calculado :=
          (ProductoCreate.precio_costo producto
             * (1 + margen_porcentaje / 100))%float in
        let db_producto :=
          Producto.mk (ProductoCreate.nombre producto)
            (ProductoCreate.descripcion producto)
            (ProductoCreate.precio_costo producto)
            precio_venta_calculado
            (Some (ProductoCreate.stock producto))
            (Some (ProductoCreate.stock_minimo producto))
            (ProductoCreate.categoria producto)
            (ProductoCreate.codigo_barras producto)
            true in
        (Return (nuevo_id, db_producto),
         commit (set_producto nuevo_id db_producto db))
    end.

(** The filters of the two stock lists; a comparison with NULL selects
    nothing. *)
Definition es_stock_critico (p : Producto.t) : bool :=
  match Producto.stock p with
  | Some s => s <? 5
  | None => false
  end
  && Producto.activo p.

Definition es_stock_bajo (p : Producto.t) : bool :=
  match Producto.stock p, Producto.stock_minimo p with
  | Some s, Some m => (s <? m) && (10 <=? s)
  | _, _ => false
  end
  && Producto.activo p.

(** [order_by(Producto.stock.asc(), Producto.id.asc())]; NULL sorts last. *)
Definition stock_id_leb (a b : Z * Producto.t) : bool :=
  match Producto.stock a.2, Producto.stock b.2 with
  | Some s, Some s' => (s <? s') || ((s =? s') && (a.1 <=? b.1))
  | Some _, None => true
  | None, Some _ => false
  | None, None => a.1 <=? b.1
  end.

Definition stock_id_le (a b : Z * Producto.t) : Prop := stock_id_leb a b = true.

#[global] Instance stock_id_le_dec (a b : Z * Producto.t) :
  Decision (stock_id_le a b) := decide (stock_id_leb a b = true).

Module ProductosPagina.
(** The dict the two stock lists return. *)
Record t : Type := mk {
  productos : list (Z * Producto.t);
  total : Z;
  skip : Z;
  limit : Z;
  has_more : bool
}.
End ProductosPagina.

(** The body shared by [productos_stock_bajo] and
    [productos_stock_critico], which differ in the filter: count, page,
    dict.  [skip] and [limit] arrive validated ([ge=0]; [ge=1, le=50]). *)
Definition pagina_stock (filtro : Producto.t -> bool) (skip limit : Z)
    (db : Session) : option ProductosPagina.t :=
  let query :=
    merge_sort stock_id_le
      (List.filter (fun r : Z * Producto.t => filtro r.2)
         (map_to_list (productos (working db)))) in
  let total := Z.of_nat (length query) in
  match offset_limit skip limit query with
  | None => None
  | Some productos =>
      Some (ProductosPagina.mk productos total skip limit
              (skip + limit <? total))
  end.

Definition productos_stock_bajo (skip limit : Z) (db : Session)
    : option ProductosPagina.t :=
  pagina_stock es_stock_bajo skip limit db.

Definition productos_stock_critico (skip limit : Z) (db : Session)
    : option ProductosPagina.t :=
  pagina_stock es_stock_critico skip limit db.

(** The three optional filters of [listar_productos] and
    [obtener_ids_filtrados].  A filter is skipped when its parameter is
    absent or empty (and for the words [todas], [todos]). *)
Definition filtro_categoria (categoria : option string) (p : Producto.t) : bool :=
  match categoria with
  | None => true
  | Some c =>
      if String.eqb c "" || String.eqb c "todas" then true
      else if String.eqb c "Sin categoría" then
        match Producto.categoria p with
        | None => true
        | Some x => String.eqb x ""
        end
      else bool_decide (Producto.categoria p = Some c)
  end.

Definition filtro_estado_stock (estado_stock : option string) (p : Producto.t)
    : bool :=
  match estado_stock with
  | None => true
  | Some e =>
      if String.eqb e "" || String.eqb e "todos" then true
      else if String.eqb e "critico" then
        match Producto.stock p with
        | Some s => s <? 5
        | None => false
        end
      else if String.eqb e "bajo" then
        match Producto.stock p, Producto.stock_minimo p with
        | Some s, Some m => (10 <=? s) && (s <? m)
        | _, _ => false
        end
      else if String.eqb e "normal" then
        match Producto.stock p, Producto.stock_minimo p with
        | Some s, Some m => m <=? s
        | _, _ => false
        end
      else true
  end.

(** [obtener_ids_filtrados].  [coincide busqueda p] stands for the [or_]
    of the three LIKE tests against [%busqueda.lower()%], which PostgreSQL
    evaluates.  The query has no ORDER BY; the ids come here in the order
    of the table. *)
Definition obtener_ids_filtrados (coincide : string -> Producto.t -> bool)
    (busqueda categoria estado_stock : option string) (db : Session) : list Z :=
  map fst
    (List.filter
       (fun r : Z * Producto.t =>
          Producto.activo r.2
          && match busqueda with
             | None => true
             | Some b => if String.eqb b "" then true else coincide b r.2
             end
          && filtro_categoria categoria r.2
          && filtro_estado_stock estado_stock r.2)
       (map_to_list (productos (working db)))).

(** ** Notions used to state the results on these handlers *)

(** The quantity a request asks of product [i], over all its lines. *)
Fixpoint cantidad_pedida (items : list ItemVentaCreate.t) (i : Z) : Z :=
  match items with
  | [] => 0
  | item :: rest =>
      (if ItemVentaCreate.producto_id item =? i
       then ItemVentaCreate.cantidad item else 0)
      + cantidad_pedida rest i
  end.

(** A product row with the quantity the request asks of it taken off its
    stock. *)
Definition descontado (items : list ItemVentaCreate.t) (i : Z)
    (p : Producto.t) : Producto.t :=
  Producto.with_stock
    ((fun s => s - cantidad_pedida items i) <$> Producto.stock p) p.

(** No two rows of the table carry the same barcode. *)
Definition codigos_unicos (m : gmap Z Producto.t) : Prop :=
  forall i j p q c,
    m !! i = Some p -> m !! j = Some q ->
    Producto.codigo_barras p = Some c -> Producto.codigo_barras q = Some c ->
    i = j.

(** The database with product [i], if there is one, marked inactive. *)
Definition de_baja (i : Z) (db : Database) : Database :=
  mkDatabase
    (mkTables (alter (Producto.with_activo false) i (productos (tables db)))
       (ventas (tables db)) (items_venta (tables db)))
    (ventas_id_seq db) (items_venta_id_seq db).

(** The flags of the products as they are, but for [i], marked inactive. *)
Definition flags_baja (i : Z) (db : Database) (j : Z) : bool :=
  if j =? i then false
  else match productos (tables db) !! j with
       | Some p => Producto.activo p
       | None => true
       end.

(** Two products, 1 with a stock of 3 and 2 with a stock of 7, both active
    and with a minimum of 10. *)
Definition almacen_bajo : Database :=
  mkDatabase (mkTables {[1 := yerba 3 true; 2 := yerba 7 true]} [] []) 1 1.

(** Product 1 again, now with a barcode. *)
Definition yerba_codigo (stock : Z) (activo : bool) : Producto.t :=
  Producto.mk "Yerba" None 100 120 (Some stock) (Some 10) None (Some "779")
    activo.

Definition almacen_codigo (stock : Z) (activo : bool) : Database :=
  mkDatabase (mkTables {[1 := yerba_codigo stock activo]} [] []) 1 1.

(** One active product, id 1, with a stock of 7 under a minimum of 10. *)
Definition almacen_hueco : Database :=
  mkDatabase (mkTables {[1 := yerba 7 true]} [] []) 1 1.

Lemma assign_ids_db_item_of (venta_id : Z) (items : list ItemVentaCreate.t) :
  forall next : Z,
    assign_ids next (map (db_item_of venta_id) items) = filas venta_id next items.
Proof.
  induction items as [| item rest IH]; intros next; cbn; [reflexivity |].
  now rewrite IH.
Qed.



(** The loop either raises, and then nothing has been committed, or it
    returns, and then every line passed. *)
Lemma crear_items_spec (venta_id : Z) (items : list ItemVentaCreate.t) :
  forall db : Session,
    match crear_items venta_id items db with
    | (Return _, db') =>
        exists m', lineas_ok (productos (working db)) items m'
                   /\ db' = tras_lineas venta_id items m' db
    | (Raise _, db') => database db' = database db
    end.
Proof.
  induction items as [| item rest IH]; intros db.
  - cbn. exists (productos (working db)). split; [constructor |].
    unfold tras_lineas. cbn. rewrite app_nil_r. now destruct db as [d [] n].
  - cbn [crear_items]. unfold query_producto.
    destruct (productos (working db) !! ItemVentaCreate.producto_id item)
      as [p |] eqn:Hp; [| reflexivity].
    destruct (Producto.stock p) as [s |] eqn:Hs; [| reflexivity].
    destruct (Z.ltb_spec s (ItemVentaCreate.cantidad item)); [reflexivity |].
    specialize (IH (set_producto (ItemVentaCreate.producto_id item)
                      (Producto.with_stock
                         (Some (s - ItemVentaCreate.cantidad item)) p)
                      (add (db_item_of venta_id item) db))).
    fold (db_item_of venta_id item).
    destruct (crear_items _ rest _) as [[[] | e] db']; [| exact IH].
    destruct IH as (m' & Hok & ->). exists m'. split.
    + econstructor; eassumption.
    + unfold tras_lineas. cbn. now rewrite <- app_assoc.
Qed.

(** The two outcomes of a request. *)
Lemma crear_venta_outcome (venta : VentaCreate.t) (current_user_id now : Z)
    (db : Database) :
  (exists e, get_db (crear_venta venta current_user_id now) db
             = (Raise e, tras_fallo db))
  \/ (exists m', lineas_ok (productos (tables db)) (VentaCreate.items venta) m'
                 /\ get_db (crear_venta venta current_user_id now) db
                    = (Return (cabecera db venta current_user_id now),
                       tras_venta db venta current_user_id now m')).
Proof.
  unfold get_db, crear_venta, add_flush_venta. cbn [SessionLocal database working new].
  match goal with |- context [crear_items ?v ?i ?s] =>
    pose proof (crear_items_spec v i s) as H; destruct (crear_items v i s) as [[[] | e] db']
  end.
  - right. destruct H as (m' & Hok & ->). exists m'. split; [exact Hok |].
    cbn. unfold tras_venta, cabecera. cbn.
    now rewrite assign_ids_db_item_of, length_map.
  - left. exists e. cbn in H. now rewrite H.
Qed.


(** * Sale creation *)


(** C1: when [crear_venta] ends in an error, of whatever kind and at
    whatever line, the committed tables are those from before the call: no
    header row, no item row, and every product row, its stock with it, as
    it was. *)
Theorem crear_venta_atomica :
  forall (venta : VentaCreate.t) (current_user_id now : Z) (db : Database),
    is_error (fst (get_db (crear_venta venta current_user_id now) db)) ->
    let db' := snd (get_db (crear_venta venta current_user_id now) db) in
    ventas (tables db') = ventas (tables db)
    /\ items_venta (tables db') = items_venta (tables db)
    /\ productos (tables db') = productos (tables db).
Proof.
  intros venta current_user_id now db.
  destruct (crear_venta_outcome venta current_user_id now db)
    as [[e ->] | (m' & _ & ->)]; cbn; [auto | contradiction].
Qed.

Lemma crear_venta_atomica_witness :
  is_error (fst (get_db (crear_venta (pedido 1) 7 0) (almacen 0 true)))
  /\ ventas (tables (snd (get_db (crear_venta (pedido 1) 7 0) (almacen 0 true))))
     = []
  /\ productos (tables (snd (get_db (crear_venta (pedido 1) 7 0) (almacen 0 true))))
     = {[1 := yerba 0 true]}.
Proof.
  assert (H : is_error (fst (get_db (crear_venta (pedido 1) 7 0) (almacen 0 true))))
    by (vm_compute; exact I).
  split; [exact H |].
  destruct (crear_venta_atomica (pedido 1) 7 0 (almacen 0 true) H) as (Hv & _ & Hp).
  split; [exact Hv | exact Hp].
Defined.





(** With no older row of [items_venta] already carrying the id the new sale
    gets (rows reference existing sales, and the sequence is ahead of
    them), the relationship [Venta.items] of the sale returned holds the
    rows written for its lines, and only them. *)
Lemma crear_venta_items (venta : VentaCreate.t) (current_user_id now : Z)
    (db db' : Database) (v : Venta.t) :
  get_db (crear_venta venta current_user_id now) db = (Return v, db') ->
  Forall (fun i => ItemVenta.venta_id i <> ventas_id_seq db)
         (items_venta (tables db)) ->
  Venta_items (tables db') v
  = filas (ventas_id_seq db) (items_venta_id_seq db) (VentaCreate.items venta).
Proof.
  destruct (crear_venta_outcome venta current_user_id now db)
    as [[e ->] | (m' & _ & ->)]; intros H Hold; [discriminate |].
  injection H as <- <-. unfold Venta_items. cbn.
  rewrite filter_app.
  replace (filter _ (items_venta (tables db))) with (@nil ItemVenta.t).
  - cbn. generalize (items_venta_id_seq db).
    induction (VentaCreate.items venta) as [| item rest IH]; intros next;
      [reflexivity |].
    cbn [filas]. rewrite filter_cons_True by reflexivity. now rewrite IH.
  - symmetry. clear -Hold.
    induction Hold as [| i l Hi _ IH]; [reflexivity |].
    now rewrite filter_cons_False.
Qed.

(** Every request falls under [lineas_ok] or has a first line that does
    not pass: product missing, stock short, or stock NULL. *)
Lemma lineas_primera_falla (items : list ItemVentaCreate.t) :
  forall m : gmap Z Producto.t,
    (exists m', lineas_ok m items m')
    \/ (exists pre item post m1,
          items = pre ++ item :: post
          /\ lineas_ok m pre m1
          /\ (m1 !! ItemVentaCreate.producto_id item = None
              \/ exists p, m1 !! ItemVentaCreate.producto_id item = Some p
                           /\ (Producto.stock p = None
                               \/ exists s, Producto.stock p = Some s
                                            /\ s < ItemVentaCreate.cantidad item))).
Proof.
  induction items as [| item rest IH]; intros m.
  - left. exists m. constructor.
  - destruct (m !! ItemVentaCreate.producto_id item) as [p |] eqn:Hp.
    2: { right. exists [], item, rest, m. repeat split; [constructor | now left]. }
    destruct (Producto.stock p) as [s |] eqn:Hs.
    2: { right. exists [], item, rest, m. repeat split; [constructor |].
         right. exists p. split; [exact Hp | now left]. }
    destruct (Z.lt_ge_cases s (ItemVentaCreate.cantidad item)) as [Hlt | Hge].
    { right. exists [], item, rest, m. repeat split; [constructor |].
      right. exists p. split; [exact Hp |]. right. now exists s. }
    destruct (IH (<[ItemVentaCreate.producto_id item :=
                      Producto.with_stock
                        (Some (s - ItemVentaCreate.cantidad item)) p]> m))
      as [[m' Hok] | (pre & it & post & m1 & -> & Hok & Hfail)].
    + left. exists m'. econstructor; eassumption.
    + right. exists (item :: pre), it, post, m1. repeat split; [| exact Hfail].
      econstructor; eassumption.
Qed.



(** ** Stock never goes below zero in a sale *)

Lemma lineas_ok_no_negativo (i : Z) (m m' : gmap Z Producto.t)
    (items : list ItemVentaCreate.t) :
  lineas_ok m items m' -> stock_no_negativo m i -> stock_no_negativo m' i.
Proof.
  induction 1 as [m | m m' item rest p s Hp Hs Hle _ IH]; [auto |].
  intros (p0 & s0 & Hp0 & Hs0 & H0). apply IH. unfold stock_no_negativo.
  destruct (decide (ItemVentaCreate.producto_id item = i)) as [<- | Hne].
  - rewrite lookup_insert_eq. eexists _, _. split; [reflexivity |].
    split; [reflexivity |]. rewrite Hp in Hp0. injection Hp0 as <-.
    rewrite Hs in Hs0. injection Hs0 as <-. lia.
  - rewrite lookup_insert_ne by exact Hne. now exists p0, s0.
Qed.

(** ** The bulk price update, as it runs *)

Lemma commit_SessionLocal (db : Database) :
  database (commit (SessionLocal db)) = db.
Proof.
  destruct db as [[m v i] sv si]. unfold commit, SessionLocal. cbn.
  now rewrite app_nil_r, Z.add_0_r.
Qed.

(** The loop returns only when it has passed over every id, and then it
    has changed nothing and counted nothing; the first id it does not pass
    over makes it raise, with nothing committed. *)
Lemma actualizar_precios_spec (producto_ids : list Z) (porcentaje_aumento : float) :
  forall (n : Z) (db : Session),
    match actualizar_precios producto_ids porcentaje_aumento n db with
    | (Return k, db') =>
        k = n /\ db' = db
        /\ forallb (omitido porcentaje_aumento (productos (working db)))
             producto_ids = true
    | (Raise e, db') =>
        e = AttributeError "'Producto' object has no attribute 'margen_porcentaje'"
        /\ database db' = database db
        /\ forallb (omitido porcentaje_aumento (productos (working db)))
             producto_ids = false
    end.
Proof.
  induction producto_ids as [| i rest IH]; intros n db; [cbn; auto |].
  cbn [actualizar_precios forallb]. unfold query_producto_activo, omitido.
  destruct (productos (working db) !! i) as [p |]; [| exact (IH n db)].
  destruct (Producto.activo p); [| exact (IH n db)].
  destruct (Producto.precio_costo p * (1 + porcentaje_aumento / 100) <=? 0)%float;
    [exact (IH n db) |].
  cbn. auto.
Qed.

(** Whatever the request, the bulk update commits no change at all. *)
Lemma actualizar_precios_masivo_database
    (request : ActualizacionPreciosMasivaRequest.t) (db : Database) :
  snd (get_db (actualizar_precios_masivo request) db) = db.
Proof.
  unfold get_db, actualizar_precios_masivo.
  destruct (_ <? -50)%float; [reflexivity |].
  destruct (200 <? _)%float; [reflexivity |].
  destruct (ActualizacionPreciosMasivaRequest.producto_ids request) as [| i rest];
    [reflexivity |].
  match goal with |- context [actualizar_precios ?l ?p ?n ?s] =>
    pose proof (actualizar_precios_spec l p n s) as H;
    destruct (actualizar_precios l p n s) as [[k | e] db']
  end.
  - destruct H as (_ & -> & _). cbn. apply commit_SessionLocal.
  - destruct H as (_ & H & _). cbn. rewrite H. now destruct db.
Qed.


(** C3, as amended: a product whose stock is a number >= 0 before
    [crear_venta] still has a stock >= 0 after it, whatever the outcome and
    however often the product occurs among the lines, since each line
    compares against the stock left by the lines before it; and the bulk
    price update leaves it as it was. *)
Theorem stock_no_negativo_preservado :
  forall (db : Database) (i : Z),
    stock_no_negativo (productos (tables db)) i ->
    (forall (venta : VentaCreate.t) (current_user_id now : Z),
        stock_no_negativo
          (productos (tables (snd (get_db (crear_venta venta current_user_id now) db))))
          i)
    /\ (forall request : ActualizacionPreciosMasivaRequest.t,
          stock_no_negativo
            (productos (tables (snd (get_db (actualizar_precios_masivo request) db))))
            i).
Proof.
  intros db i H. split.
  - intros venta current_user_id now.
    destruct (crear_venta_outcome venta current_user_id now db)
      as [[e ->] | (m' & Hok & ->)]; cbn; [exact H |].
    exact (lineas_ok_no_negativo i _ _ _ Hok H).
  - intros request. now rewrite actualizar_precios_masivo_database.
Qed.

Lemma stock_no_negativo_preservado_witness :
  stock_no_negativo (productos (tables (almacen 5 true))) 1
  /\ stock_no_negativo
       (productos (tables (snd (get_db
          (crear_venta
             (VentaCreate.mk [ItemVentaCreate.mk 1 2 10; ItemVentaCreate.mk 1 3 10]
                "efectivo" None) 7 0) (almacen 5 true))))) 1.
Proof.
  assert (H : stock_no_negativo (productos (tables (almacen 5 true))) 1).
  { exists (yerba 5 true), 5. split; [reflexivity |]. split; [reflexivity | lia]. }
  split; [exact H |].
  exact (proj1 (stock_no_negativo_preservado (almacen 5 true) 1 H) _ 7 0).
Defined.

(** C3, as stated, fails on the administrative update: [actualizar_producto]
    stores the stock it is sent, here -1 over a stock of 5, and commits. *)
Lemma actualizar_producto_stock_negativo :
  get_db (actualizar_producto 1
            (ProductoUpdate.mk Unset Unset Unset (SetTo (Some (-1))) Unset Unset))
         (almacen 5 true)
  = (Return (yerba (-1) true), almacen (-1) true)
  /\ stock_no_negativo (productos (tables (almacen 5 true))) 1
  /\ ~ stock_no_negativo (productos (tables (almacen (-1) true))) 1.
Proof.
  split; [vm_compute; reflexivity |]. split.
  - exists (yerba 5 true), 5. split; [reflexivity |]. split; [reflexivity | lia].
  - intros (p & s & Hp & Hs & H0).
    assert (productos (tables (almacen (-1) true)) !! 1 = Some (yerba (-1) true))
      as Hl by reflexivity.
    rewrite Hl in Hp. injection Hp as <-. cbn in Hs. injection Hs as <-. lia.
Qed.

(** ** Quantities are not bounded below *)






(** ** The active flag plays no part in a sale *)

Lemma lookup_marcar_tablas (flags : Z -> bool) (t : Tables) (i : Z) :
  productos (marcar_tablas flags t) !! i
  = Producto.with_activo (flags i) <$> productos t !! i.
Proof.
  unfold marcar_tablas. cbn. rewrite map_lookup_imap.
  now destruct (productos t !! i).
Qed.

Lemma crear_items_marcar (flags : Z -> bool) (venta_id : Z)
    (items : list ItemVentaCreate.t) :
  forall db : Session,
    crear_items venta_id items (marcar_sesion flags db)
    = (fst (crear_items venta_id items db),
       marcar_sesion flags (snd (crear_items venta_id items db))).
Proof.
  induction items as [| item rest IH]; intros db; [reflexivity |].
  cbn [crear_items]. unfold query_producto.
  change (working (marcar_sesion flags db)) with (marcar_tablas flags (working db)).
  rewrite lookup_marcar_tablas.
  destruct (productos (working db) !! ItemVentaCreate.producto_id item)
    as [p |]; [| reflexivity].
  cbn [fmap option_fmap option_map Producto.with_activo Producto.stock
       Producto.nombre].
  destruct (Producto.stock p) as [s |]; [| reflexivity].
  destruct (s <? ItemVentaCreate.cantidad item); [reflexivity |].
  rewrite <- IH. f_equal.
  unfold marcar_sesion, set_producto, add, marcar_tablas. cbn. f_equal. f_equal.
  now rewrite map_imap_insert.
Qed.

Lemma add_flush_venta_marcar (flags : Z -> bool) (usuario_id fecha : Z)
    (total : float) (metodo_pago : string) (observaciones : option string)
    (db : Session) :
  add_flush_venta usuario_id fecha total metodo_pago observaciones
    (marcar_sesion flags db)
  = (fst (add_flush_venta usuario_id fecha total metodo_pago observaciones db),
     marcar_sesion flags
       (snd (add_flush_venta usuario_id fecha total metodo_pago observaciones db))).
Proof. reflexivity. Qed.

(** C7, as amended: [crear_venta] never reads a product's [activo] flag.
    Whatever flags the products carry, the response is the same and so are
    the rows written; a line for an inactive product whose stock covers the
    quantity is accepted like any other. *)
Theorem crear_venta_ignora_activo :
  forall (flags : Z -> bool) (venta : VentaCreate.t) (current_user_id now : Z)
         (db : Database),
    get_db (crear_venta venta current_user_id now) (marcar_activo flags db)
    = (fst (get_db (crear_venta venta current_user_id now) db),
       marcar_activo flags (snd (get_db (crear_venta venta current_user_id now) db))).
Proof.
  intros flags venta current_user_id now db.
  unfold get_db, crear_venta.
  change (SessionLocal (marcar_activo flags db))
    with (marcar_sesion flags (SessionLocal db)).
  rewrite add_flush_venta_marcar.
  destruct (add_flush_venta _ _ _ _ _ (SessionLocal db)) as [db_venta db1].
  cbn [fst snd]. rewrite crear_items_marcar.
  destruct (crear_items _ _ db1) as [[[] | e] db2]; reflexivity.
Qed.

(** C7, as stated, fails: product 1 is inactive with a stock of 5; a sale of
    2 units of it goes through and leaves a stock of 3. *)
Lemma crear_venta_producto_inactivo :
  get_db (crear_venta (pedido 2) 7 0) (almacen 5 false)
  = (Return (Venta.mk 1 7 0 20 "efectivo" None),
     mkDatabase
       (mkTables {[1 := yerba 3 false]}
          [Venta.mk 1 7 0 20 "efectivo" None]
          [ItemVenta.mk (Some 1) 1 1 2 10 20]) 2 2).
Proof. vm_compute. reflexivity. Qed.

(** * Bulk price update *)

(** The figures C5 expects for a cost of 100, a sale price of 120 (a margin
    of 20) and an increase of 10: these are what the two roundings of the
    handler would give, were the margin there to be read. *)
Lemma cifras_esperadas :
  py_round (100 * (1 + 10 / 100)) 2 = 110%float
  /\ py_round (py_round (100 * (1 + 10 / 100)) 2 * (1 + 20 / 100)) 2 = 132%float.
Proof. split; vm_compute; reflexivity. Qed.

(** C5: on a product with cost 100 and sale price 120 and an increase of 10,
    [actualizar_precios_masivo] does not reach cost 110 / sale price 132:
    the handler reads [producto.margen_porcentaje], which [Producto] does
    not have, the exception is caught, the session rolled back and a 500
    returned; the product keeps cost 100 and sale price 120. *)
Theorem actualizar_precios_masivo_margen :
  get_db (actualizar_precios_masivo (ActualizacionPreciosMasivaRequest.mk [1] 10))
         (almacen 5 true)
  = (Raise (HTTPException 500
              "Error al actualizar productos: 'Producto' object has no attribute 'margen_porcentaje'"),
     almacen 5 true).
Proof. vm_compute. reflexivity. Qed.

(** C9: ids that do not resolve (3) or belong to an inactive product (2) are
    passed over without failing the call and without being counted; but a
    selected product that should be updated (1, active, new cost 110) is
    not: the call fails with a 500 and nothing is changed. *)
Theorem actualizar_precios_masivo_omitidos :
  get_db (actualizar_precios_masivo
            (ActualizacionPreciosMasivaRequest.mk [2; 3] 10)) almacen_dos
  = (Return (ActualizacionPreciosMasivaResponse.mk true 0
               "0 productos actualizados exitosamente"),
     almacen_dos)
  /\ get_db (actualizar_precios_masivo
               (ActualizacionPreciosMasivaRequest.mk [2; 3; 1] 10)) almacen_dos
     = (Raise (HTTPException 500
                 "Error al actualizar productos: 'Producto' object has no attribute 'margen_porcentaje'"),
        almacen_dos).
Proof. split; vm_compute; reflexivity. Qed.



(** * Further results: sales *)

Lemma lineas_ok_lookup (m m' : gmap Z Producto.t)
    (items : list ItemVentaCreate.t) :
  lineas_ok m items m' ->
  forall i : Z, m' !! i = descontado items i <$> m !! i.
Proof.
  induction 1 as [m | m m' item rest p s Hp Hs Hle _ IH]; intros i.
  - destruct (m !! i) as [[n d pc pv [st |] sm c cb a] |]; cbn;
      unfold descontado; cbn; [| reflexivity | reflexivity].
    now rewrite Z.sub_0_r.
  - rewrite IH. unfold descontado. cbn [cantidad_pedida].
    destruct (Z.eqb_spec (ItemVentaCreate.producto_id item) i) as [<- | Hne].
    + rewrite lookup_insert_eq, Hp. cbn. rewrite Hs. cbn.
      rewrite Z.sub_add_distr. reflexivity.
    + rewrite lookup_insert_ne by exact Hne. reflexivity.
Qed.

(** X1: after a sale that went through, the stock of every product is its
    stock from before less the quantities of all the lines that name it, a
    product named by several lines included; no other column of a product
    changes and no product appears or disappears. *)
Theorem crear_venta_descuenta :
  forall (venta : VentaCreate.t) (current_user_id now : Z) (db db' : Database)
         (v : Venta.t),
    get_db (crear_venta venta current_user_id now) db = (Return v, db') ->
    forall i : Z,
      productos (tables db') !! i
      = descontado (VentaCreate.items venta) i <$> productos (tables db) !! i.
Proof.
  intros venta current_user_id now db db' v.
  destruct (crear_venta_outcome venta current_user_id now db)
    as [[e ->] | (m' & Hok & ->)]; intros H; [discriminate |].
  injection H as <- <-. cbn. now apply lineas_ok_lookup.
Qed.

Lemma crear_venta_descuenta_witness :
  get_db (crear_venta
            (VentaCreate.mk [ItemVentaCreate.mk 1 2 10; ItemVentaCreate.mk 1 3 10]
               "efectivo" None) 7 0) (almacen 5 true)
  = (Return (Venta.mk 1 7 0 50 "efectivo" None),
     mkDatabase
       (mkTables {[1 := yerba 0 true]}
          [Venta.mk 1 7 0 50 "efectivo" None]
          [ItemVenta.mk (Some 1) 1 1 2 10 20; ItemVenta.mk (Some 2) 1 1 3 10 30])
       2 3)
  /\ ({[1 := yerba 0 true]} : gmap Z Producto.t) !! 1
     = descontado [ItemVentaCreate.mk 1 2 10; ItemVentaCreate.mk 1 3 10] 1
         <$> productos (tables (almacen 5 true)) !! 1.
Proof.
  assert (H : get_db (crear_venta
            (VentaCreate.mk [ItemVentaCreate.mk 1 2 10; ItemVentaCreate.mk 1 3 10]
               "efectivo" None) 7 0) (almacen 5 true)
  = (Return (Venta.mk 1 7 0 50 "efectivo" None),
     mkDatabase
       (mkTables {[1 := yerba 0 true]}
          [Venta.mk 1 7 0 50 "efectivo" None]
          [ItemVenta.mk (Some 1) 1 1 2 10 20; ItemVenta.mk (Some 2) 1 1 3 10 30])
       2 3)) by (vm_compute; reflexivity).
  split; [exact H |].
  exact (crear_venta_descuenta _ _ _ _ _ _ H 1).
Defined.







Lemma offset_limit_Some {A} (skip limit : Z) (rows l : list A) :
  offset_limit skip limit rows = Some l ->
  0 <= skip /\ 0 <= limit
  /\ l = take (Z.to_nat limit) (drop (Z.to_nat skip) rows).
Proof.
  unfold offset_limit.
  destruct (Z.ltb_spec skip 0); [discriminate |].
  destruct (Z.ltb_spec limit 0); [discriminate |].
  cbn. intros Heq. injection Heq as <-. auto.
Qed.

Lemma offset_limit_todo {A} (limit : Z) (rows : list A) :
  Z.of_nat (length rows) <= limit ->
  offset_limit 0 limit rows = Some rows.
Proof.
  intros Hlen. unfold offset_limit.
  destruct (Z.ltb_spec limit 0); [lia |].
  change (Z.to_nat 0) with 0%nat. rewrite drop_0. cbn [orb]. f_equal.
  apply take_ge. apply Nat2Z.inj_le. rewrite Z2Nat.id by lia. exact Hlen.
Qed.

(** X3: [listar_ventas] hands a user whose role is not [admin] only sales
    of its own: every sale listed is a row of [ventas] with that user's id.
    The role [superadmin] is not [admin] here, and is served like a
    cashier. *)
Theorem listar_ventas_propias :
  forall (skip limit : Z) (current_user : Usuario.t) (db : Session)
         (l : list Venta.t) (v : Venta.t),
    Usuario.rol current_user <> ADMIN ->
    listar_ventas skip limit current_user db = Some l ->
    v ∈ l ->
    v ∈ ventas (working db) /\ Venta.usuario_id v = Usuario.id current_user.
Proof.
  intros skip limit current_user db l v Hrol Hl Hv.
  unfold listar_ventas in Hl.
  destruct (Usuario.rol current_user); [| contradiction |]; cbn in Hl;
    apply offset_limit_Some in Hl as (_ & _ & ->);
    apply subseteq_take, subseteq_drop in Hv;
    apply list_elem_of_In, filter_In in Hv as [Hin Heq];
    (split; [now apply list_elem_of_In | now apply Z.eqb_eq]).
Qed.

Lemma listar_ventas_propias_witness :
  SUPERADMIN <> ADMIN
  /\ listar_ventas 0 10 (Usuario.mk 7 "pepe" SUPERADMIN true)
       (SessionLocal
          (mkDatabase
             (mkTables ∅ [Venta.mk 1 7 0 20 "efectivo" None;
                          Venta.mk 2 8 0 30 "efectivo" None] []) 3 1))
     = Some [Venta.mk 1 7 0 20 "efectivo" None]
  /\ Venta.usuario_id (Venta.mk 1 7 0 20 "efectivo" None) = 7.
Proof.
  assert (Hrol : SUPERADMIN <> ADMIN) by discriminate.
  assert (Hl : listar_ventas 0 10 (Usuario.mk 7 "pepe" SUPERADMIN true)
       (SessionLocal
          (mkDatabase
             (mkTables ∅ [Venta.mk 1 7 0 20 "efectivo" None;
                          Venta.mk 2 8 0 30 "efectivo" None] []) 3 1))
     = Some [Venta.mk 1 7 0 20 "efectivo" None]) by reflexivity.
  split; [exact Hrol |]. split; [exact Hl |].
  apply (listar_ventas_propias 0 10 (Usuario.mk 7 "pepe" SUPERADMIN true)
           _ _ (Venta.mk 1 7 0 20 "efectivo" None) Hrol Hl).
  apply list_elem_of_here.
Defined.

(** X4: a sale just created is listed for the user who made it, whatever
    the role, once the page is large enough to hold the table. *)
Theorem crear_venta_listar_ventas :
  forall (venta : VentaCreate.t) (current_user : Usuario.t) (now limit : Z)
         (db db' : Database) (v : Venta.t),
    get_db (crear_venta venta (Usuario.id current_user) now) db
    = (Return v, db') ->
    Z.of_nat (length (ventas (tables db'))) <= limit ->
    exists l : list Venta.t,
      listar_ventas 0 limit current_user (SessionLocal db') = Some l /\ v ∈ l.
Proof.
  intros venta current_user now limit db db' v.
  destruct (crear_venta_outcome venta (Usuario.id current_user) now db)
    as [[e ->] | (m' & _ & ->)]; intros H Hlimit; [discriminate |].
  injection H as <- <-. cbn in Hlimit. unfold listar_ventas. cbn.
  destruct (String.eqb _ "admin").
  - eexists. split; [apply offset_limit_todo; exact Hlimit |].
    apply elem_of_app. right. apply list_elem_of_here.
  - eexists. split.
    + apply offset_limit_todo.
      etransitivity; [| exact Hlimit].
      apply inj_le, List.filter_length_le.
    + apply list_elem_of_In, filter_In. split.
      * apply in_or_app. right. now left.
      * cbn. apply Z.eqb_refl.
Qed.

Lemma crear_venta_listar_ventas_witness :
  get_db (crear_venta (pedido 2) 7 0) (almacen 5 true)
  = (Return (Venta.mk 1 7 0 20 "efectivo" None),
     mkDatabase
       (mkTables {[1 := yerba 3 true]}
          [Venta.mk 1 7 0 20 "efectivo" None]
          [ItemVenta.mk (Some 1) 1 1 2 10 20]) 2 2)
  /\ exists l : list Venta.t,
       listar_ventas 0 100 (Usuario.mk 7 "caja" CAJERO true)
         (SessionLocal
            (mkDatabase
               (mkTables {[1 := yerba 3 true]}
                  [Venta.mk 1 7 0 20 "efectivo" None]
                  [ItemVenta.mk (Some 1) 1 1 2 10 20]) 2 2))
       = Some l
       /\ Venta.mk 1 7 0 20 "efectivo" None ∈ l.
Proof.
  assert (H : get_db (crear_venta (pedido 2)
                        (Usuario.id (Usuario.mk 7 "caja" CAJERO true)) 0)
                (almacen 5 true)
              = (Return (Venta.mk 1 7 0 20 "efectivo" None),
                 mkDatabase
                   (mkTables {[1 := yerba 3 true]}
                      [Venta.mk 1 7 0 20 "efectivo" None]
                      [ItemVenta.mk (Some 1) 1 1 2 10 20]) 2 2))
    by (vm_compute; reflexivity).
  split; [exact H |].
  apply (crear_venta_listar_ventas _ _ _ 100 _ _ _ H). cbn. lia.
Defined.

(** * Further results: products *)

Lemma commit_set_producto (i : Z) (p : Producto.t) (db : Database) :
  database (commit (set_producto i p (SessionLocal db)))
  = mkDatabase
      (mkTables (<[i := p]> (productos (tables db))) (ventas (tables db))
         (items_venta (tables db)))
      (ventas_id_seq db) (items_venta_id_seq db).
Proof.
  destruct db as [[m v it] sv si]. unfold commit, set_producto, SessionLocal.
  cbn. now rewrite app_nil_r, Z.add_0_r.
Qed.



(** X6: a payload that carries [precio_costo], whatever else it carries,
    never goes through: the handler ends in an error and the product keeps
    its cost, its sale price and every other column. *)
Theorem actualizar_producto_precio_costo :
  forall (producto_id : Z) (producto : ProductoUpdate.t) (db : Database),
    in_update_data (ProductoUpdate.precio_costo producto) = true ->
    is_error (fst (get_db (actualizar_producto producto_id producto) db))
    /\ snd (get_db (actualizar_producto producto_id producto) db) = db.
Proof.
  intros producto_id producto db Hin. unfold get_db, actualizar_producto.
  destruct (query_producto _ _) as [old |]; [| cbn; auto].
  match goal with |- context [if ?c then _ else _] => destruct c end;
    [cbn; auto |].
  rewrite Hin. cbn. auto.
Qed.

Lemma actualizar_producto_precio_costo_witness :
  in_update_data
    (ProductoUpdate.precio_costo
       (ProductoUpdate.mk Unset (SetTo (Some 150%float)) Unset Unset Unset Unset))
  = true
  /\ snd (get_db (actualizar_producto 1
                    (ProductoUpdate.mk Unset (SetTo (Some 150%float)) Unset
                       Unset Unset Unset))
                 (almacen 5 true))
     = almacen 5 true.
Proof.
  split; [reflexivity |].
  apply (actualizar_producto_precio_costo 1
           (ProductoUpdate.mk Unset (SetTo (Some 150%float)) Unset Unset Unset Unset)
           (almacen 5 true)).
  reflexivity.
Defined.

Lemma setattrs_Some (u : ProductoUpdate.t) (old p : Producto.t) :
  setattrs u old = Some p ->
  ProductoUpdate.precio_costo u = Unset ->
  Producto.nombre p
  = match ProductoUpdate.nombre u with
    | SetTo (Some v) => v
    | _ => Producto.nombre old
    end
  /\ Producto.precio_venta p
     = match ProductoUpdate.precio_venta u with
       | SetTo (Some v) => v
       | _ => Producto.precio_venta old
       end
  /\ Producto.stock p
     = match ProductoUpdate.stock u with
       | SetTo v => v
       | Unset => Producto.stock old
       end
  /\ Producto.categoria p
     = match ProductoUpdate.categoria u with
       | SetTo v => v
       | Unset => Producto.categoria old
       end
  /\ Producto.codigo_barras p
     = match ProductoUpdate.codigo_barras u with
       | SetTo v => v
       | Unset => Producto.codigo_barras old
       end
  /\ Producto.precio_costo p = Producto.precio_costo old
  /\ Producto.descripcion p = Producto.descripcion old
  /\ Producto.stock_minimo p = Producto.stock_minimo old
  /\ Producto.activo p = Producto.activo old.
Proof.
  destruct u as [n pc pv st c cb]. cbn. intros H ->. revert H.
  unfold setattrs. cbn.
  destruct n as [| [n |]], pv as [| [pv |]], st as [| st], c as [| c],
    cb as [| cb]; cbn; intros H; try discriminate;
    injection H as <-; cbn; repeat split.
Qed.

(** X7: an [actualizar_producto] that goes through replaces the row of
    that one product and nothing else: a column present in the payload
    takes the payload's value, the stock as it is sent (negative or null
    included); a column absent from it, and the cost, the description, the
    minimum stock and the active flag in any case, keep their value; the
    other products, the sales and their lines are untouched. *)
Theorem actualizar_producto_ok :
  forall (producto_id : Z) (producto : ProductoUpdate.t) (db db' : Database)
         (p : Producto.t),
    get_db (actualizar_producto producto_id producto) db = (Return p, db') ->
    exists old : Producto.t,
      productos (tables db) !! producto_id = Some old
      /\ productos (tables db') = <[producto_id := p]> (productos (tables db))
      /\ ventas (tables db') = ventas (tables db)
      /\ items_venta (tables db') = items_venta (tables db)
      /\ Producto.stock p
         = match ProductoUpdate.stock producto with
           | SetTo v => v
           | Unset => Producto.stock old
           end
      /\ Producto.nombre p
         = match ProductoUpdate.nombre producto with
           | SetTo (Some v) => v
           | _ => Producto.nombre old
           end
      /\ Producto.precio_venta p
         = match ProductoUpdate.precio_venta producto with
           | SetTo (Some v) => v
           | _ => Producto.precio_venta old
           end
      /\ Producto.categoria p
         = match ProductoUpdate.categoria producto with
           | SetTo v => v
           | Unset => Producto.categoria old
           end
      /\ Producto.codigo_barras p
         = match ProductoUpdate.codigo_barras producto with
           | SetTo v => v
           | Unset => Producto.codigo_barras old
           end
      /\ Producto.precio_costo p = Producto.precio_costo old
      /\ Producto.descripcion p = Producto.descripcion old
      /\ Producto.stock_minimo p = Producto.stock_minimo old
      /\ Producto.activo p = Producto.activo old.
Proof.
  intros producto_id producto db db' p. unfold get_db, actualizar_producto.
  unfold query_producto. cbn [SessionLocal working].
  destruct (productos (tables db) !! producto_id) as [old |] eqn:Hold;
    [| discriminate].
  match goal with |- context [if ?c then _ else _] => destruct c end;
    [discriminate |].
  destruct (ProductoUpdate.precio_costo producto) as [| pc] eqn:Hpc; cbn;
    [| discriminate].
  destruct (setattrs producto old) as [p' |] eqn:Hset; [| discriminate].
  match goal with |- context [if ?c then _ else _] => destruct c end;
    [| discriminate].
  intros H. injection H as <- <-. exists old. split; [reflexivity |].
  destruct (setattrs_Some _ _ _ Hset Hpc)
    as (Hn & Hpv & Hst & Hc & Hcb & Hco & Hd & Hsm & Ha).
  destruct db as [[m vs its] sv si]. cbn. rewrite app_nil_r.
  repeat split; assumption.
Qed.

Lemma actualizar_producto_ok_witness :
  get_db (actualizar_producto 1
            (ProductoUpdate.mk Unset Unset Unset (SetTo (Some 8)) Unset Unset))
         (almacen 5 true)
  = (Return (yerba 8 true), almacen 8 true)
  /\ productos (tables (almacen 8 true))
     = <[1 := yerba 8 true]> (productos (tables (almacen 5 true))).
Proof.
  assert (H : get_db (actualizar_producto 1
            (ProductoUpdate.mk Unset Unset Unset (SetTo (Some 8)) Unset Unset))
         (almacen 5 true)
  = (Return (yerba 8 true), almacen 8 true)) by (vm_compute; reflexivity).
  split; [exact H |].
  destruct (actualizar_producto_ok _ _ _ _ _ H) as (old & _ & Hp & _).
  exact Hp.
Defined.

Lemma otro_con_codigo_false (codigo : string) (producto_id : Z) (t : Tables) :
  otro_con_codigo codigo producto_id t = false ->
  forall j q,
    j <> producto_id -> productos t !! j = Some q ->
    Producto.codigo_barras q <> Some codigo.
Proof.
  intros Hfalse j q Hne Hq Hc.
  enough (otro_con_codigo codigo producto_id t = true) by congruence.
  apply existsb_exists. exists (j, q). split.
  - now apply list_elem_of_In, elem_of_map_to_list.
  - cbn. rewrite !bool_decide_eq_true_2; auto.
Qed.

(** X8: if no two products carry the same barcode before
    [actualizar_producto], none do after it, whatever the payload and the
    outcome. *)
Theorem actualizar_producto_codigos_unicos :
  forall (producto_id : Z) (producto : ProductoUpdate.t) (db : Database),
    codigos_unicos (productos (tables db)) ->
    codigos_unicos
      (productos
         (tables (snd (get_db (actualizar_producto producto_id producto) db)))).
Proof.
  intros producto_id producto db Huniq. unfold get_db, actualizar_producto.
  unfold query_producto. cbn [SessionLocal working].
  destruct (productos (tables db) !! producto_id) as [old |] eqn:Hold;
    [| exact Huniq].
  match goal with |- context [if ?c then _ else _] => destruct c end;
    [exact Huniq |].
  destruct (ProductoUpdate.precio_costo producto) as [| pc] eqn:Hpc; cbn;
    [| exact Huniq].
  destruct (setattrs producto old) as [p |] eqn:Hset; [| exact Huniq].
  match goal with |- context [if ?c then _ else _] => destruct c eqn:Hun end;
    [| exact Huniq].
  destruct (setattrs_Some _ _ _ Hset Hpc) as (_ & _ & _ & _ & Hcb & _).
  assert (Hotro : forall j q c,
             j <> producto_id -> productos (tables db) !! j = Some q ->
             Producto.codigo_barras p = Some c ->
             Producto.codigo_barras q <> Some c).
  { intros j q c Hne Hq Hc Hqc. rewrite Hcb in Hc.
    destruct (ProductoUpdate.codigo_barras producto) as [| [c' |]].
    - apply Hne. exact (Huniq _ _ _ _ _ Hq Hold Hqc Hc).
    - injection Hc as ->. apply negb_true_iff in Hun.
      exact (otro_con_codigo_false _ _ _ Hun j q Hne Hq Hqc).
    - discriminate. }
  destruct db as [[m vs its] sv si]. cbn in *.
  intros a b pa pb c Ha Hb Hca Hcb'.
  destruct (decide (a = producto_id)) as [-> | Hna],
           (decide (b = producto_id)) as [-> | Hnb]; [reflexivity | | |].
  - rewrite lookup_insert_eq in Ha. injection Ha as <-.
    rewrite lookup_insert_ne in Hb by auto.
    destruct (Hotro b pb c Hnb Hb Hca Hcb').
  - rewrite lookup_insert_eq in Hb. injection Hb as <-.
    rewrite lookup_insert_ne in Ha by auto.
    destruct (Hotro a pa c Hna Ha Hcb' Hca).
  - rewrite lookup_insert_ne in Ha, Hb by auto.
    exact (Huniq _ _ _ _ _ Ha Hb Hca Hcb').
Qed.

Lemma actualizar_producto_codigos_unicos_witness :
  codigos_unicos (productos (tables (almacen 5 true)))
  /\ codigos_unicos
       (productos
          (tables (snd (get_db
             (actualizar_producto 1
                (ProductoUpdate.mk Unset Unset Unset Unset Unset
                   (SetTo (Some "779"))))
             (almacen 5 true))))).
Proof.
  assert (H : codigos_unicos (productos (tables (almacen 5 true)))).
  { intros i j p q c Hi Hj _ _.
    change (productos (tables (almacen 5 true)))
      with ({[1 := yerba 5 true]} : gmap Z Producto.t) in Hi, Hj.
    apply lookup_singleton_Some in Hi as [<- _].
    now apply lookup_singleton_Some in Hj as [<- _]. }
  split; [exact H |].
  exact (actualizar_producto_codigos_unicos 1 _ (almacen 5 true) H).
Defined.

(** ** Taking a product off the catalogue *)

Lemma de_baja_insert (i : Z) (p : Producto.t) (m : gmap Z Producto.t) :
  m !! i = Some p ->
  <[i := Producto.with_activo false p]> m = alter (Producto.with_activo false) i m.
Proof.
  intros Hp. apply map_eq. intros j.
  destruct (decide (i = j)) as [<- | Hne].
  - now rewrite lookup_insert_eq, lookup_alter_eq, Hp.
  - now rewrite lookup_insert_ne, lookup_alter_ne.
Qed.

Lemma de_baja_ausente (i : Z) (db : Database) :
  productos (tables db) !! i = None -> de_baja i db = db.
Proof.
  intros Hnone. destruct db as [[m vs its] sv si]. unfold de_baja. cbn in *.
  do 2 f_equal. apply map_eq. intros j.
  destruct (decide (i = j)) as [<- | Hne].
  - now rewrite lookup_alter_eq, Hnone.
  - now rewrite lookup_alter_ne.
Qed.

(** What [eliminar_producto] answers and leaves, in one equation. *)
Lemma eliminar_producto_get_db (producto_id : Z) (db : Database) :
  get_db (eliminar_producto producto_id) db
  = (match productos (tables db) !! producto_id with
     | Some _ => Return "Producto eliminado correctamente"
     | None => Raise (HTTPException 404 "Producto no encontrado")
     end,
     de_baja producto_id db).
Proof.
  unfold get_db, eliminar_producto, query_producto.
  change (working (SessionLocal db)) with (tables db).
  destruct (productos (tables db) !! producto_id) as [p |] eqn:Hp.
  - rewrite commit_set_producto. unfold de_baja.
    now rewrite (de_baja_insert _ _ _ Hp).
  - now rewrite de_baja_ausente.
Qed.

(** X9: [eliminar_producto] on a product that exists answers with its
    message and removes nothing: the row is still there, with [activo]
    false and every other column, its stock among them, as before; the
    other products, the sales and their lines are untouched. *)
Theorem eliminar_producto_baja :
  forall (producto_id : Z) (p : Producto.t) (db : Database),
    productos (tables db) !! producto_id = Some p ->
    exists db' : Database,
      get_db (eliminar_producto producto_id) db
      = (Return "Producto eliminado correctamente", db')
      /\ productos (tables db') !! producto_id
         = Some (Producto.with_activo false p)
      /\ (forall j : Z,
            j <> producto_id ->
            productos (tables db') !! j = productos (tables db) !! j)
      /\ ventas (tables db') = ventas (tables db)
      /\ items_venta (tables db') = items_venta (tables db).
Proof.
  intros producto_id p db Hp. exists (de_baja producto_id db).
  rewrite eliminar_producto_get_db, Hp. split; [reflexivity |].
  unfold de_baja. cbn. split; [now rewrite lookup_alter_eq, Hp |].
  split; [| auto]. intros j Hne. now rewrite lookup_alter_ne.
Qed.

Lemma eliminar_producto_baja_witness :
  productos (tables (almacen 5 true)) !! 1 = Some (yerba 5 true)
  /\ exists db' : Database,
       get_db (eliminar_producto 1) (almacen 5 true)
       = (Return "Producto eliminado correctamente", db')
       /\ productos (tables db') !! 1 = Some (yerba 5 false).
Proof.
  assert (H : productos (tables (almacen 5 true)) !! 1 = Some (yerba 5 true))
    by reflexivity.
  split; [exact H |].
  destruct (eliminar_producto_baja 1 _ _ H) as (db' & Hr & Hp & _).
  exists db'. split; [exact Hr | exact Hp].
Defined.

(** X10: [eliminar_producto] is idempotent: on a product already taken
    off it answers as the first time (not with a 404) and changes
    nothing more. *)
Theorem eliminar_producto_idempotente :
  forall (producto_id : Z) (db : Database),
    get_db (eliminar_producto producto_id)
      (snd (get_db (eliminar_producto producto_id) db))
    = get_db (eliminar_producto producto_id) db.
Proof.
  intros producto_id db. rewrite !eliminar_producto_get_db. cbn [snd].
  f_equal.
  - unfold de_baja. cbn. rewrite lookup_alter_eq.
    now destruct (productos (tables db) !! producto_id).
  - unfold de_baja. cbn. do 2 f_equal. apply map_eq. intros j.
    destruct (decide (producto_id = j)) as [<- | Hne].
    + rewrite !lookup_alter_eq.
      now destruct (productos (tables db) !! producto_id).
    + now rewrite !lookup_alter_ne.
Qed.

Lemma marcar_activo_de_baja (flags : Z -> bool) (i : Z) (db : Database) :
  flags i = false ->
  (forall j p,
      j <> i -> productos (tables db) !! j = Some p ->
      flags j = Producto.activo p) ->
  marcar_activo flags db = de_baja i db.
Proof.
  intros Hi Hj. destruct db as [[m vs its] sv si].
  unfold marcar_activo, marcar_tablas, de_baja. cbn in *. do 2 f_equal.
  apply map_eq. intros j. rewrite map_lookup_imap.
  destruct (decide (i = j)) as [<- | Hne].
  - rewrite lookup_alter_eq. destruct (m !! i); cbn; [| reflexivity].
    now rewrite Hi.
  - rewrite lookup_alter_ne by exact Hne.
    destruct (m !! j) as [p |] eqn:Hp; cbn; [| reflexivity].
    rewrite (Hj j p) by auto. now destruct p.
Qed.

Lemma flags_baja_spec (i : Z) (db : Database) :
  flags_baja i db i = false
  /\ forall j p,
       j <> i -> productos (tables db) !! j = Some p ->
       flags_baja i db j = Producto.activo p.
Proof.
  unfold flags_baja. split; [now rewrite Z.eqb_refl |].
  intros j p Hne Hp. destruct (Z.eqb_spec j i); [contradiction |].
  now rewrite Hp.
Qed.

(** A sale changes no [activo] flag, whatever its outcome. *)
Lemma crear_venta_activo (venta : VentaCreate.t) (current_user_id now : Z)
    (db : Database) (j : Z) :
  Producto.activo
    <$> productos (tables (snd (get_db (crear_venta venta current_user_id now) db)))
          !! j
  = Producto.activo <$> productos (tables db) !! j.
Proof.
  destruct (crear_venta_outcome venta current_user_id now db)
    as [[e ->] | (m' & Hok & ->)]; cbn; [reflexivity |].
  rewrite (lineas_ok_lookup _ _ _ Hok).
  now destruct (productos (tables db) !! j).
Qed.

(** X11: taking a product off the catalogue and selling commute: on the
    database where product [i] has been marked inactive, [crear_venta]
    gives the response it gives on the original one, lines for [i]
    included, and leaves what marking [i] inactive after the sale leaves. *)
Theorem crear_venta_de_baja :
  forall (i : Z) (venta : VentaCreate.t) (current_user_id now : Z)
         (db : Database),
    get_db (crear_venta venta current_user_id now)
      (snd (get_db (eliminar_producto i) db))
    = (fst (get_db (crear_venta venta current_user_id now) db),
       snd (get_db (eliminar_producto i)
              (snd (get_db (crear_venta venta current_user_id now) db)))).
Proof.
  intros i venta current_user_id now db.
  rewrite !eliminar_producto_get_db. cbn [snd].
  destruct (flags_baja_spec i db) as [Hi Hj].
  rewrite <- (marcar_activo_de_baja (flags_baja i db) i db Hi Hj).
  rewrite <- (marcar_activo_de_baja (flags_baja i db) i
                (snd (get_db (crear_venta venta current_user_id now) db)) Hi).
  - unfold get_db, crear_venta.
    change (SessionLocal (marcar_activo (flags_baja i db) db))
      with (marcar_sesion (flags_baja i db) (SessionLocal db)).
    rewrite add_flush_venta_marcar.
    destruct (add_flush_venta _ _ _ _ _ (SessionLocal db)) as [db_venta db1].
    cbn [fst snd]. rewrite crear_items_marcar.
    destruct (crear_items _ _ db1) as [[[] | e] db2]; reflexivity.
  - intros j p Hne Hp.
    pose proof (crear_venta_activo venta current_user_id now db j) as Ha.
    rewrite Hp in Ha. cbn in Ha.
    destruct (productos (tables db) !! j) as [p0 |] eqn:Hp0; [| discriminate].
    injection Ha as Ha. rewrite Ha. exact (Hj j p0 Hne Hp0).
Qed.

(** ** Looking a product up *)

Lemma buscar_filtro_In (codigo : string) (m : gmap Z Producto.t)
    (i : Z) (p : Producto.t) :
  In (i, p)
     (List.filter
        (fun r : Z * Producto.t =>
           bool_decide (Producto.codigo_barras r.2 = Some codigo)
           && Producto.activo r.2)
        (map_to_list m))
  <-> m !! i = Some p
      /\ Producto.codigo_barras p = Some codigo
      /\ Producto.activo p = true.
Proof.
  rewrite filter_In, <- list_elem_of_In, elem_of_map_to_list. cbn.
  rewrite andb_true_iff, bool_decide_eq_true. tauto.
Qed.

(** X12: what [buscar_por_codigo_barras] returns is a row of the table
    that carries the barcode asked for, is active and has a stock > 0; the
    search writes nothing. *)
Theorem buscar_por_codigo_barras_resultado :
  forall (codigo : string) (db db' : Database) (i : Z) (p : Producto.t),
    get_db (buscar_por_codigo_barras codigo) db = (Return (i, p), db') ->
    db' = db
    /\ productos (tables db) !! i = Some p
    /\ Producto.codigo_barras p = Some codigo
    /\ Producto.activo p = true
    /\ exists s : Z, Producto.stock p = Some s /\ 0 < s.
Proof.
  intros codigo db db' i p. unfold get_db, buscar_por_codigo_barras.
  change (working (SessionLocal db)) with (tables db).
  destruct (head _) as [[j q] |] eqn:Hhead; [| discriminate].
  destruct (Producto.stock q) as [s |] eqn:Hs; [| discriminate].
  destruct (Z.leb_spec s 0) as [Hle | Hgt]; [discriminate |].
  intros H. injection H as -> -> <-. split; [reflexivity |].
  apply head_Some_elem_of, list_elem_of_In, buscar_filtro_In in Hhead
    as (Hp & Hc & Ha).
  repeat split; try assumption. exists s. split; [exact Hs | lia].
Qed.

Lemma buscar_por_codigo_barras_resultado_witness :
  get_db (buscar_por_codigo_barras "779") (almacen_codigo 5 true)
  = (Return (1, yerba_codigo 5 true), almacen_codigo 5 true)
  /\ Producto.activo (yerba_codigo 5 true) = true.
Proof.
  assert (H : get_db (buscar_por_codigo_barras "779") (almacen_codigo 5 true)
              = (Return (1, yerba_codigo 5 true), almacen_codigo 5 true))
    by (vm_compute; reflexivity).
  split; [exact H |].
  destruct (buscar_por_codigo_barras_resultado _ _ _ _ _ H)
    as (_ & _ & _ & Ha & _).
  exact Ha.
Defined.

(** X13: with no barcode carried twice, an active product is found by its
    barcode: the search answers with it when its stock is > 0 and with a
    400 naming it when its stock is <= 0. *)
Theorem buscar_por_codigo_barras_encuentra :
  forall (codigo : string) (db : Database) (i : Z) (p : Producto.t) (s : Z),
    codigos_unicos (productos (tables db)) ->
    productos (tables db) !! i = Some p ->
    Producto.codigo_barras p = Some codigo ->
    Producto.activo p = true ->
    Producto.stock p = Some s ->
    get_db (buscar_por_codigo_barras codigo) db
    = (if s <=? 0
       then Raise (HTTPException 400
                     ("El producto '" +:+ Producto.nombre p
                        +:+ "' no tiene stock disponible"))
       else Return (i, p),
       db).
Proof.
  intros codigo db i p s Huniq Hp Hc Ha Hs.
  unfold get_db, buscar_por_codigo_barras.
  change (working (SessionLocal db)) with (tables db).
  destruct (head _) as [[j q] |] eqn:Hhead.
  - apply head_Some_elem_of, list_elem_of_In, buscar_filtro_In in Hhead
      as (Hq & Hqc & _).
    pose proof (Huniq _ _ _ _ _ Hq Hp Hqc Hc) as ->.
    rewrite Hp in Hq. injection Hq as <-. rewrite Hs.
    now destruct (s <=? 0).
  - apply head_None in Hhead.
    assert (Hin : In (i, p)
                    (List.filter
                       (fun r : Z * Producto.t =>
                          bool_decide (Producto.codigo_barras r.2 = Some codigo)
                          && Producto.activo r.2)
                       (map_to_list (productos (tables db)))))
      by now apply buscar_filtro_In.
    rewrite Hhead in Hin. destruct Hin.
Qed.

Lemma buscar_por_codigo_barras_encuentra_witness :
  codigos_unicos (productos (tables (almacen_codigo 0 true)))
  /\ get_db (buscar_por_codigo_barras "779") (almacen_codigo 0 true)
     = (Raise (HTTPException 400 "El producto 'Yerba' no tiene stock disponible"),
        almacen_codigo 0 true).
Proof.
  assert (H : codigos_unicos (productos (tables (almacen_codigo 0 true)))).
  { intros i j p q c Hi Hj _ _.
    change (productos (tables (almacen_codigo 0 true)))
      with ({[1 := yerba_codigo 0 true]} : gmap Z Producto.t) in Hi, Hj.
    apply lookup_singleton_Some in Hi as [<- _].
    now apply lookup_singleton_Some in Hj as [<- _]. }
  split; [exact H |].
  exact (buscar_por_codigo_barras_encuentra "779" (almacen_codigo 0 true)
           1 (yerba_codigo 0 true) 0 H eq_refl eq_refl eq_refl eq_refl).
Defined.



(** X15: [crear_producto] never creates a product: when the barcode is
    not already taken, the handler reads [producto.margen_porcentaje],
    which the request schema does not have, and the request ends in an
    error; in every case the database is left as it was. *)
Theorem crear_producto_nunca_crea :
  forall (producto : ProductoCreate.t) (nuevo_id : Z) (db : Database),
    is_error (fst (get_db (crear_producto producto nuevo_id) db))
    /\ snd (get_db (crear_producto producto nuevo_id) db) = db.
Proof.
  intros producto nuevo_id db. unfold get_db, crear_producto.
  match goal with |- context [if ?c then _ else _] => destruct c end;
    cbn; auto.
Qed.

(** X16: [actualizar_precios_masivo] never changes a row, whatever the
    request: when it answers with success, the count it reports is 0. *)
Theorem actualizar_precios_masivo_sin_efecto :
  forall (request : ActualizacionPreciosMasivaRequest.t) (db : Database),
    snd (get_db (actualizar_precios_masivo request) db) = db
    /\ forall resp : ActualizacionPreciosMasivaResponse.t,
         fst (get_db (actualizar_precios_masivo request) db) = Return resp ->
         ActualizacionPreciosMasivaResponse.productos_actualizados resp = 0.
Proof.
  intros request db. split; [apply actualizar_precios_masivo_database |].
  intros resp. unfold get_db, actualizar_precios_masivo.
  destruct (_ <? -50)%float; [discriminate |].
  destruct (200 <? _)%float; [discriminate |].
  destruct (ActualizacionPreciosMasivaRequest.producto_ids request) as [| i rest];
    [discriminate |].
  match goal with |- context [actualizar_precios ?l ?p ?n ?s] =>
    pose proof (actualizar_precios_spec l p n s) as H;
    destruct (actualizar_precios l p n s) as [[k | e] db']
  end; [| discriminate].
  destruct H as (-> & _). cbn. intros H. now injection H as <-.
Qed.

(** ** The stock lists *)







(** X18: asked from the start with a [limit] that covers the table,
    [productos_stock_critico] lists every active product whose stock is
    below 5. *)
Theorem productos_stock_critico_completa :
  forall (limit : Z) (db : Session) (i : Z) (p : Producto.t) (s : Z),
    Z.of_nat (size (productos (working db))) <= limit ->
    productos (working db) !! i = Some p ->
    Producto.activo p = true ->
    Producto.stock p = Some s ->
    s < 5 ->
    exists pg : ProductosPagina.t,
      productos_stock_critico 0 limit db = Some pg
      /\ (i, p) ∈ ProductosPagina.productos pg.
Proof.
  intros limit db i p s Hsize Hp Ha Hs Hlt.
  unfold productos_stock_critico, pagina_stock.
  set (rows := List.filter (fun r : Z * Producto.t => es_stock_critico r.2)
                 (map_to_list (productos (working db)))).
  assert (Hlen : (length (merge_sort stock_id_le rows)
                  <= size (productos (working db)))%nat).
  { rewrite merge_sort_Permutation. unfold rows.
    rewrite List.filter_length_le. unfold size, map_size.
    now rewrite length_map_to_list. }
  rewrite offset_limit_todo by lia.
  eexists. split; [reflexivity |]. cbn.
  rewrite merge_sort_Permutation. apply list_elem_of_In, filter_In. split.
  - now apply list_elem_of_In, elem_of_map_to_list.
  - cbn. unfold es_stock_critico. rewrite Hs, Ha.
    destruct (Z.ltb_spec s 5); [reflexivity | lia].
Qed.

Lemma productos_stock_critico_completa_witness :
  Z.of_nat (size (productos (working (SessionLocal almacen_bajo)))) <= 20
  /\ exists pg : ProductosPagina.t,
       productos_stock_critico 0 20 (SessionLocal almacen_bajo) = Some pg
       /\ (1, yerba 3 true) ∈ ProductosPagina.productos pg.
Proof.
  assert (H : Z.of_nat (size (productos (working (SessionLocal almacen_bajo))))
              <= 20) by (vm_compute; discriminate).
  split; [exact H |].
  apply (productos_stock_critico_completa 20 (SessionLocal almacen_bajo) 1
           (yerba 3 true) 3 H); [reflexivity | reflexivity | reflexivity | lia].
Defined.

Lemma pagina_stock_In (filtro : Producto.t -> bool) (skip limit : Z)
    (db : Session) (pg : ProductosPagina.t) (i : Z) (p : Producto.t) :
  pagina_stock filtro skip limit db = Some pg ->
  (i, p) ∈ ProductosPagina.productos pg ->
  filtro p = true.
Proof.
  unfold pagina_stock. intros Hpg Hin.
  destruct (offset_limit _ _ _) as [l |] eqn:Hl; [| discriminate].
  injection Hpg as <-. cbn in Hin.
  apply offset_limit_Some in Hl as (_ & _ & ->).
  apply subseteq_take, subseteq_drop in Hin.
  rewrite merge_sort_Permutation in Hin.
  now apply list_elem_of_In, filter_In in Hin as [_ Hf].
Qed.

(** X19: the two stock lists do not meet, and they do not cover the
    products short of stock: a product whose stock is from 5 to 9 is in
    neither of them, whatever its minimum stock. *)
Theorem productos_stock_bajo_critico :
  forall (skip limit skip' limit' : Z) (db : Session)
         (critico bajo : ProductosPagina.t),
    productos_stock_critico skip limit db = Some critico ->
    productos_stock_bajo skip' limit' db = Some bajo ->
    (forall i p,
        (i, p) ∈ ProductosPagina.productos critico ->
        (i, p) ∉ ProductosPagina.productos bajo)
    /\ (forall i p s,
          Producto.stock p = Some s -> 5 <= s < 10 ->
          ((i, p) ∉ ProductosPagina.productos critico)
          /\ ((i, p) ∉ ProductosPagina.productos bajo)).
Proof.
  intros skip limit skip' limit' db critico bajo Hc Hb. split.
  - intros i p Hic Hib.
    apply (pagina_stock_In _ _ _ _ _ _ _ Hc) in Hic.
    apply (pagina_stock_In _ _ _ _ _ _ _ Hb) in Hib.
    unfold es_stock_critico in Hic. unfold es_stock_bajo in Hib.
    destruct (Producto.stock p) as [s |]; [| discriminate].
    destruct (Producto.stock_minimo p) as [m |]; [| discriminate].
    destruct (Z.ltb_spec s 5); [| discriminate].
    destruct (Z.leb_spec 10 s); [lia |].
    now rewrite andb_false_r in Hib.
  - intros i p s Hs Hrange. split; intros Hin.
    + apply (pagina_stock_In _ _ _ _ _ _ _ Hc) in Hin.
      unfold es_stock_critico in Hin. rewrite Hs in Hin.
      destruct (Z.ltb_spec s 5); [lia | discriminate].
    + apply (pagina_stock_In _ _ _ _ _ _ _ Hb) in Hin.
      unfold es_stock_bajo in Hin. rewrite Hs in Hin.
      destruct (Producto.stock_minimo p) as [m |]; [| discriminate].
      destruct (Z.leb_spec 10 s); [lia |].
      now rewrite andb_false_r in Hin.
Qed.

Lemma productos_stock_bajo_critico_witness :
  productos_stock_critico 0 20 (SessionLocal almacen_bajo)
  = Some (ProductosPagina.mk [(1, yerba 3 true)] 1 0 20 false)
  /\ productos_stock_bajo 0 20 (SessionLocal almacen_bajo)
     = Some (ProductosPagina.mk [] 0 0 20 false)
  /\ (2, yerba 7 true) ∉ [(1, yerba 3 true)].
Proof.
  assert (Hc : productos_stock_critico 0 20 (SessionLocal almacen_bajo)
               = Some (ProductosPagina.mk [(1, yerba 3 true)] 1 0 20 false))
    by (vm_compute; reflexivity).
  assert (Hb : productos_stock_bajo 0 20 (SessionLocal almacen_bajo)
               = Some (ProductosPagina.mk [] 0 0 20 false))
    by (vm_compute; reflexivity).
  split; [exact Hc |]. split; [exact Hb |].
  destruct (productos_stock_bajo_critico _ _ _ _ _ _ _ Hc Hb) as [_ Hgap].
  apply (proj1 (Hgap 2 (yerba 7 true) 7 eq_refl ltac:(lia))).
Defined.

(** X20: the pages of a stock list follow one another: the page of [l1]
    products from [skip] followed by the page of [l2] products from
    [skip + l1] is the page of [l1 + l2] products from [skip]; nothing is
    repeated and nothing is left out between two pages. *)
Theorem pagina_stock_consecutivas :
  forall (filtro : Producto.t -> bool) (skip l1 l2 : Z) (db : Session),
    0 <= skip -> 0 <= l1 -> 0 <= l2 ->
    exists pg1 pg2 pg : ProductosPagina.t,
      pagina_stock filtro skip l1 db = Some pg1
      /\ pagina_stock filtro (skip + l1) l2 db = Some pg2
      /\ pagina_stock filtro skip (l1 + l2) db = Some pg
      /\ ProductosPagina.productos pg1 ++ ProductosPagina.productos pg2
         = ProductosPagina.productos pg.
Proof.
  intros filtro skip l1 l2 db Hskip Hl1 Hl2. unfold pagina_stock, offset_limit.
  destruct (Z.ltb_spec skip 0); [lia |].
  destruct (Z.ltb_spec l1 0); [lia |].
  destruct (Z.ltb_spec l2 0); [lia |].
  destruct (Z.ltb_spec (skip + l1) 0); [lia |].
  destruct (Z.ltb_spec (l1 + l2) 0); [lia |]. cbn [orb].
  do 3 eexists. do 3 (split; [reflexivity |]). cbn.
  rewrite !Z2Nat.inj_add by lia.
  rewrite <- drop_drop. apply take_take_drop.
Qed.

Lemma pagina_stock_consecutivas_witness :
  0 <= 0 /\ 0 <= 1 /\ 0 <= 1
  /\ exists pg1 pg2 pg : ProductosPagina.t,
       productos_stock_critico 0 1 (SessionLocal almacen_bajo) = Some pg1
       /\ productos_stock_critico (0 + 1) 1 (SessionLocal almacen_bajo) = Some pg2
       /\ productos_stock_critico 0 (1 + 1) (SessionLocal almacen_bajo) = Some pg
       /\ ProductosPagina.productos pg1 ++ ProductosPagina.productos pg2
          = ProductosPagina.productos pg.
Proof.
  assert (H0 : 0 <= 0) by lia. assert (H1 : 0 <= 1) by lia.
  split; [exact H0 |]. split; [exact H1 |]. split; [exact H1 |].
  exact (pagina_stock_consecutivas es_stock_critico 0 1 1
           (SessionLocal almacen_bajo) H0 H1 H1).
Defined.

(** ** Selecting ids *)

Lemma obtener_ids_filtrados_In (coincide : string -> Producto.t -> bool)
    (busqueda categoria estado_stock : option string) (db : Session) (i : Z) :
  i ∈ obtener_ids_filtrados coincide busqueda categoria estado_stock db
  <-> exists p,
        productos (working db) !! i = Some p
        /\ Producto.activo p = true
        /\ match busqueda with
           | None => true
           | Some b => if String.eqb b "" then true else coincide b p
           end = true
        /\ filtro_categoria categoria p = true
        /\ filtro_estado_stock estado_stock p = true.
Proof.
  unfold obtener_ids_filtrados. rewrite list_elem_of_In, in_map_iff. split.
  - intros ([j p] & <- & Hin). apply filter_In in Hin as [Hin Hf].
    apply list_elem_of_In, elem_of_map_to_list in Hin. cbn in *.
    apply andb_true_iff in Hf as [Hf He].
    apply andb_true_iff in Hf as [Hf Hc].
    apply andb_true_iff in Hf as [Ha Hb].
    exists p. auto.
  - intros (p & Hp & Ha & Hb & Hc & He). exists (i, p). split; [reflexivity |].
    apply filter_In. split.
    + now apply list_elem_of_In, elem_of_map_to_list.
    + cbn. now rewrite Ha, Hb, Hc, He.
Qed.

(** X21: [obtener_ids_filtrados] never selects a product taken off the
    catalogue, whatever the filters; with no filter at all it selects
    exactly the ids of the active products. *)
Theorem obtener_ids_filtrados_activos :
  forall (coincide : string -> Producto.t -> bool)
         (busqueda categoria estado_stock : option string) (db : Session)
         (i : Z),
    (i ∈ obtener_ids_filtrados coincide busqueda categoria estado_stock db ->
     exists p, productos (working db) !! i = Some p
               /\ Producto.activo p = true)
    /\ (i ∈ obtener_ids_filtrados coincide None None None db
        <-> exists p, productos (working db) !! i = Some p
                      /\ Producto.activo p = true).
Proof.
  intros coincide busqueda categoria estado_stock db i. split.
  - rewrite obtener_ids_filtrados_In. intros (p & Hp & Ha & _). now exists p.
  - rewrite obtener_ids_filtrados_In. split.
    + intros (p & Hp & Ha & _). now exists p.
    + intros (p & Hp & Ha). exists p. cbn. auto.
Qed.

(** X22: the three stock states do not cover the products: one whose
    stock is from 5 to 9 and below its minimum is selected under none of
    [critico], [bajo] and [normal], whatever the other filters. *)
Theorem obtener_ids_filtrados_hueco :
  forall (coincide : string -> Producto.t -> bool)
         (busqueda categoria : option string) (db : Session)
         (i : Z) (p : Producto.t) (s m : Z),
    productos (working db) !! i = Some p ->
    Producto.stock p = Some s ->
    Producto.stock_minimo p = Some m ->
    5 <= s < 10 ->
    s < m ->
    (i ∉ obtener_ids_filtrados coincide busqueda categoria (Some "critico") db)
    /\ (i ∉ obtener_ids_filtrados coincide busqueda categoria (Some "bajo") db)
    /\ (i ∉ obtener_ids_filtrados coincide busqueda categoria (Some "normal") db).
Proof.
  intros coincide busqueda categoria db i p s m Hp Hs Hm Hrange Hlt.
  repeat split; rewrite obtener_ids_filtrados_In;
    intros (q & Hq & _ & _ & _ & He); rewrite Hp in Hq; injection Hq as <-;
    cbn in He; rewrite Hs in He; rewrite ?Hm in He.
  - destruct (Z.ltb_spec s 5); [lia | discriminate].
  - destruct (Z.leb_spec 10 s); [lia | discriminate].
  - destruct (Z.leb_spec m s); [lia | discriminate].
Qed.

Lemma obtener_ids_filtrados_hueco_witness :
  productos (working (SessionLocal almacen_hueco)) !! 1 = Some (yerba 7 true)
  /\ 5 <= 7 < 10
  /\ 1 ∉ obtener_ids_filtrados (fun _ _ => true) None None (Some "critico")
           (SessionLocal almacen_hueco).
Proof.
  assert (Hp : productos (working (SessionLocal almacen_hueco)) !! 1
               = Some (yerba 7 true)) by reflexivity.
  assert (Hr : 5 <= 7 < 10) by lia.
  split; [exact Hp |]. split; [exact Hr |].
  apply (proj1 (obtener_ids_filtrados_hueco (fun _ _ => true) None None
                  (SessionLocal almacen_hueco) 1 (yerba 7 true) 7 10
                  Hp eq_refl eq_refl Hr ltac:(lia))).
Defined.

(** X23: a stock state that is none of [critico], [bajo] and [normal] is
    ignored without an error: the selection is the one made with no stock
    state. *)
Theorem obtener_ids_filtrados_estado_desconocido :
  forall (coincide : string -> Producto.t -> bool)
         (busqueda categoria : option string) (estado : string) (db : Session),
    estado <> "critico" -> estado <> "bajo" -> estado <> "normal" ->
    obtener_ids_filtrados coincide busqueda categoria (Some estado) db
    = obtener_ids_filtrados coincide busqueda categoria None db.
Proof.
  intros coincide busqueda categoria estado db Hc Hb Hn.
  unfold obtener_ids_filtrados. f_equal. apply filter_ext. intros [i p].
  f_equal. unfold filtro_estado_stock.
  destruct (String.eqb estado "" || String.eqb estado "todos"); [reflexivity |].
  destruct (String.eqb_spec estado "critico"); [contradiction |].
  destruct (String.eqb_spec estado "bajo"); [contradiction |].
  destruct (String.eqb_spec estado "normal"); [contradiction |].
  reflexivity.
Qed.

Lemma obtener_ids_filtrados_estado_desconocido_witness :
  "agotado" <> "critico" /\ "agotado" <> "bajo" /\ "agotado" <> "normal"
  /\ obtener_ids_filtrados (fun _ _ => true) None None (Some "agotado")
       (SessionLocal almacen_hueco)
     = obtener_ids_filtrados (fun _ _ => true) None None None
         (SessionLocal almacen_hueco).
Proof.
  assert (Hc : "agotado" <> "critico") by discriminate.
  assert (Hb : "agotado" <> "bajo") by discriminate.
  assert (Hn : "agotado" <> "normal") by discriminate.
  split; [exact Hc |]. split; [exact Hb |]. split; [exact Hn |].
  exact (obtener_ids_filtrados_estado_desconocido (fun _ _ => true) None None
           "agotado" (SessionLocal almacen_hueco) Hc Hb Hn).
Defined.
